(** * Fuse admin shell: configuration store, navigation flattening, sidebar

    A shallow embedding of the three logic-bearing pieces of the shell:
    - [FuseConfigService] (config.service.ts): merge-and-broadcast store,
    - [FuseNavigationService] (navigation.service.ts): tree flattening,
    - [FuseSidebarComponent] (sidebar.component.ts): open/fold/lock machine.

    The TypeScript sources type configuration objects and navigation nodes
    as [any]; they are embedded here as untyped JavaScript values. *)

From stdpp Require Import base option list strings pretty gmap fin_maps.

Set Default Proof Using "Type".
Set Warnings "-register-all".

(** ** JavaScript values *)

Module JS.

(** Plain data, as [any]-typed code receives it.  An array is an object
    whose own enumerable keys are its indices ([length] is not enumerable),
    so it is covered by [VObj]; numbers are restricted to integers. *)
Inductive value : Type :=
  | VUndefined
  | VNull
  | VBool (b : bool)
  | VNum (n : Z)
  | VStr (s : string)
  | VObj (props : gmap string value).

Abbreviation obj := (gmap string value).

(** A thrown exception.  The only one these sources can raise themselves
    is the [TypeError] of a property access on [undefined] or [null]. *)
Inductive exn : Type := TypeError.

Inductive completion (A : Type) : Type :=
  | Normal (a : A)
  | Throw (e : exn).
Arguments Normal {A} a.
Arguments Throw {A} e.

(** ToBoolean: the test performed by [if ( v )], [!v] and [v || w]. *)
Definition truthy (v : value) : bool :=
  match v with
  | VUndefined | VNull => false
  | VBool b => b
  | VNum n => negb (n =? 0)%Z
  | VStr s => negb (String.eqb s "")
  | VObj _ => true
  end.

(** [v || w] *)
Definition or_else (v w : value) : value := if truthy v then v else w.

(** Own enumerable properties of a string: one per index. *)
Fixpoint string_props (i : nat) (s : string) : obj :=
  match s with
  | EmptyString => ∅
  | String c r => <[pretty i := VStr (String c EmptyString)]> (string_props (S i) r)
  end.

(** What the spread [...v] inside an object literal contributes:
    nothing for [undefined], [null], booleans and numbers, the indexed
    characters of a string, the own properties of an object. *)
Definition own_props (v : value) : obj :=
  match v with
  | VObj props => props
  | VStr s => string_props 0 s
  | _ => ∅
  end.

(** [{...a, ...b}]: later spreads overwrite earlier ones key by key.
    stdpp's union keeps the left operand on a clash, hence the order. *)
Definition spread2 (a b : obj) : obj := b ∪ a.

(** [o.k] for an object's property map; an absent key reads [undefined].
    The names read in these sources ([layout], [colorClasses],
    [navigationFolded], ...) are not inherited from any prototype. *)
Definition prop (o : obj) (k : string) : value := default VUndefined (o !! k).

(** [v.k] for an arbitrary value: a [TypeError] on [undefined] and [null];
    a primitive has none of the properties read here, a string only its
    indices. *)
Definition get (v : value) (k : string) : completion value :=
  match v with
  | VUndefined | VNull => Throw TypeError
  | VObj props => Normal (prop props k)
  | VStr s => Normal (prop (string_props 0 s) k)
  | VBool _ | VNum _ => Normal VUndefined
  end.

(** [v.k = x] in strict-mode code (every ES module is strict): only an
    object can take the property. *)
Definition set (v : value) (k : string) (x : value) : completion value :=
  match v with
  | VObj props => Normal (VObj (<[k := x]> props))
  | _ => Throw TypeError
  end.

#[global] Instance completion_ret : MRet completion := @Normal.
#[global] Instance completion_bind : MBind completion := λ A B f m,
  match m with
  | Normal a => f a
  | Throw e => Throw e
  end.

End JS.
Import JS.

(** ** config.service.ts *)

Module Config.

Definition DEFAULT_layout : obj :=
  list_to_map
    [ ("navigation", VStr "left");
      ("navigationFolded", VBool false);
      ("toolbar", VStr "below");
      ("footer", VStr "below");
      ("mode", VStr "fullwidth") ].

Definition DEFAULT_colorClasses : obj :=
  list_to_map
    [ ("toolbar", VStr "mat-white-500-bg");
      ("navbar", VStr "mat-fuse-dark-700-bg");
      ("footer", VStr "mat-fuse-dark-900-bg") ].

Definition DEFAULT_CONFIG : value :=
  VObj (list_to_map
    [ ("layout", VObj DEFAULT_layout);
      ("colorClasses", VObj DEFAULT_colorClasses);
      ("customScrollbars", VBool true);
      ("routerAnimation", VStr "fadeIn") ]).

(** [@angular/cdk] platform flags read by the constructor. *)
Record Platform : Type := { ANDROID : bool; IOS : bool }.

(** Router events, as far as the service tells them apart. *)
Inductive RouterEvent : Type :=
  | NavigationStart
  | OtherEvent.

(** The service.  [config] is only ever assigned an object literal
    (constructor and [setConfig]), so it is kept as the property map of
    that object.  [onConfigChanged] is the [BehaviorSubject], kept as the
    values it has been given, oldest first; the last one is what a new
    subscriber is replayed.

    The constructor's shallow copy leaves [config] and [defaultConfig]
    sharing their subsection objects, but the service never writes into an
    existing object ([setConfig] builds new ones), so values stand for
    the objects. *)
Record FuseConfigService : Type := {
  config : obj;
  defaultConfig : value;
  onConfigChanged : list obj
}.

(** The constructor; [custom] is the optional injected [FUSE_CONFIG]
    ([undefined] when none is provided). *)
Definition constructor (platform : Platform) (custom : value)
    : completion FuseConfigService :=
  let defaultConfig := if truthy custom then custom else DEFAULT_CONFIG in
  defaultConfig ←
    (if ANDROID platform || IOS platform
     then set defaultConfig "customScrollbars" (VBool false)
     else Normal defaultConfig);
  let config := own_props defaultConfig in
  Normal {| config := config;
            defaultConfig := defaultConfig;
            onConfigChanged := [config] |}.

(** [setConfig(config)].  The object literal is evaluated left to right, so
    [config.layout] is the first thing that can throw, and it does so
    before [this.config] is assigned. *)
Definition setConfig (arg : value) (this : FuseConfigService)
    : completion FuseConfigService :=
  let top := spread2 (config this) (own_props arg) in
  arg_layout ← get arg "layout";
  let layout := spread2 (own_props (prop (config this) "layout")) (own_props arg_layout) in
  arg_colorClasses ← get arg "colorClasses";
  let colorClasses :=
    spread2 (own_props (prop (config this) "colorClasses")) (own_props arg_colorClasses) in
  let config' := <["colorClasses" := VObj colorClasses]> (<["layout" := VObj layout]> top) in
  Normal {| config := config';
            defaultConfig := defaultConfig this;
            onConfigChanged := onConfigChanged this ++ [config'] |}.

(** The subscriber the constructor attaches to [router.events]. *)
Definition onRouterEvent (event : RouterEvent) (this : FuseConfigService)
    : completion FuseConfigService :=
  match event with
  | NavigationStart =>
      default_layout ← get (defaultConfig this) "layout";
      setConfig (VObj {[ "layout" := default_layout ]}) this
  | OtherEvent => Normal this
  end.

(** What can happen to a service after construction. *)
Inductive action : Type :=
  | SetConfig (arg : value)
  | Route (event : RouterEvent).

Definition perform (a : action) (this : FuseConfigService)
    : completion FuseConfigService :=
  match a with
  | SetConfig arg => setConfig arg this
  | Route event => onRouterEvent event this
  end.

(** A call that throws leaves the service as it was: nothing has been
    assigned yet when the exception is raised. *)
Definition step (this : FuseConfigService) (a : action) : FuseConfigService :=
  match perform a this with
  | Normal this' => this'
  | Throw _ => this
  end.

Definition run (acts : list action) (this : FuseConfigService) : FuseConfigService :=
  foldl step this acts.

End Config.

(** ** navigation.service.ts *)

Module Navigation.

(** A node of the navigation model, seen through the five properties
    [getFlatNavigation] reads.  A property the node lacks is [VUndefined];
    [children] is [None] when absent (or otherwise falsy) and the array of
    child nodes when present. *)
Inductive navItem : Type :=
  NavItem (type title icon url : value) (children : option (list navItem)).

Definition type (n : navItem) : value := let 'NavItem t _ _ _ _ := n in t.
Definition title (n : navItem) : value := let 'NavItem _ t _ _ _ := n in t.
Definition icon (n : navItem) : value := let 'NavItem _ _ i _ _ := n in i.
Definition url (n : navItem) : value := let 'NavItem _ _ _ u _ := n in u.
Definition children (n : navItem) : option (list navItem) :=
  let 'NavItem _ _ _ _ c := n in c.

(** [v === 'literal'] *)
Definition is_string (v : value) (literal : string) : bool :=
  match v with
  | VStr s => String.eqb s literal
  | _ => false
  end.

(** The service: [flatNavigation] is the array created once, with the
    instance, and pushed to ever after. *)
Record FuseNavigationService : Type := {
  flatNavigation : list value
}.

Definition new : FuseNavigationService := {| flatNavigation := [] |}.

(** [this.flatNavigation.push(entry)] *)
Definition push (entry : value) (this : FuseNavigationService) : FuseNavigationService :=
  {| flatNavigation := flatNavigation this ++ [entry] |}.

(** The object literal pushed for an item node. *)
Definition flat_entry (navItem : navItem) : value :=
  VObj (list_to_map
    [ ("title", title navItem);
      ("type", type navItem);
      ("icon", or_else (icon navItem) (VBool false));
      ("url", url navItem) ]).

(** One turn of the [for ... of] loop; the recursive call on
    [navItem.children] is the loop over the children. *)
Fixpoint visit (navItem : navItem) (this : FuseNavigationService)
    : FuseNavigationService :=
  if is_string (type navItem) "item" then push (flat_entry navItem) this
  else if is_string (type navItem) "collapse" || is_string (type navItem) "group" then
    match navItem with
    | NavItem _ _ _ _ (Some children) => foldl (λ this child, visit child this) this children
    | NavItem _ _ _ _ None => this
    end
  else this.

(** [getFlatNavigation(navigation)]: the service after the call; the
    value returned is [this.flatNavigation] itself, the same array. *)
Definition getFlatNavigation (navigation : list navItem) (this : FuseNavigationService)
    : FuseNavigationService :=
  foldl (λ this navItem, visit navItem this) this navigation.

Definition returned (this : FuseNavigationService) : list value := flatNavigation this.

(** [n] successive calls with the same tree on one instance. *)
Definition repeated_calls (n : nat) (navigation : list navItem)
    (this : FuseNavigationService) : FuseNavigationService :=
  Nat.iter n (getFlatNavigation navigation) this.

(** *** The traversal as the specification words it *)

(** Depth first, in order: an item contributes its record, a
    collapse or group node what its children contribute, a grouping node
    without children nothing. *)
Fixpoint flatten_node (n : navItem) : list value :=
  match n with
  | NavItem type _ _ _ children =>
      if is_string type "item" then [flat_entry n]
      else if is_string type "collapse" || is_string type "group" then
        match children with
        | Some cs => concat (map flatten_node cs)
        | None => []
        end
      else []
  end.

Definition flatten (navigation : list navItem) : list value :=
  concat (map flatten_node navigation).

(** Number of item leaves of a tree: nodes tagged [item] that have no
    children. *)
Fixpoint item_count (n : navItem) : nat :=
  match n with
  | NavItem type _ _ _ None => if is_string type "item" then 1 else 0
  | NavItem type _ _ _ (Some cs) => sum_list (map item_count cs)
  end.

Definition item_leaves (navigation : list navItem) : nat :=
  sum_list (map item_count navigation).

(** The navigation model of the shell: every node is tagged [item],
    [collapse] or [group], and an item is a leaf. *)
Fixpoint well_tagged (n : navItem) : bool :=
  match n with
  | NavItem type _ _ _ children =>
      if is_string type "item" then
        match children with None => true | Some _ => false end
      else
        (is_string type "collapse" || is_string type "group") &&
        match children with
        | Some cs => forallb well_tagged cs
        | None => true
        end
  end.

(** Induction over a node and, through [children], its subtrees. *)
Section navItem_induction.
Context (P : navItem → Prop).
Hypothesis leaf : ∀ type title icon url, P (NavItem type title icon url None).
Hypothesis inner : ∀ type title icon url cs,
  Forall P cs → P (NavItem type title icon url (Some cs)).

Fixpoint navItem_tree_ind (n : navItem) : P n :=
  match n with
  | NavItem type title icon url None => leaf type title icon url
  | NavItem type title icon url (Some cs) =>
      inner type title icon url cs
        ((fix all (l : list navItem) : Forall P l :=
            match l with
            | [] => @List.Forall_nil _ P
            | c :: l' => @List.Forall_cons _ P c l' (navItem_tree_ind c) (all l')
            end) cs)
  end.
End navItem_induction.

End Navigation.

(** ** sidebar.component.ts *)

Module Sidebar.
Import Config.

(** *** The rendering host, as far as the component touches it *)

(** Elements are named by numbers. *)
Abbreviation element := nat.

Inductive fade : Type := FadeIn | FadeOut.

(** Calls made to the collaborators (renderer, animation builder, sidebar
    registry, media subscription), in the order they are made. *)
Inductive call : Type :=
  | Register (name : option string)
  | Unregister (name : option string)
  | AddClass (el : element) (class : string)
  | SetStyle (el : element) (rule val : string)
  | RemoveStyle (el : element) (rule : string)
  | CreateElement (el : element)
  | AppendChild (el : element)
  | RemoveChild (el : element)
  | Play (el : element) (f : fade)
  | Subscribe
  | Unsubscribe.

(** The sidebar's parent element: its element children in document order,
    their inline styles, and the next element [createElement] returns. *)
Record Dom : Type := {
  siblings : list element;
  style : gmap (element * string) string;
  fresh : element
}.

Fixpoint next_of (x : element) (l : list element) : option element :=
  match l with
  | [] => None
  | y :: r => if decide (y = x) then head r else next_of x r
  end.

Fixpoint previous_of (x : element) (l : list element) : option element :=
  match l with
  | y :: r =>
      match r with
      | z :: _ => if decide (z = x) then Some y else previous_of x r
      | [] => None
      end
  | [] => None
  end.

Inductive Align : Type := left | right.

Record Subscription : Type := { closed : bool }.

(** *** The component *)

(** Fields that the class declares without initialiser are [undefined]
    until assigned: [None].  [nativeElement] is [elementRef.nativeElement];
    [dom], [calls] and [pendingDone] stand for the injected renderer and
    animation builder: the document they act on, the calls received, and
    the number of fade-out players whose [onDone] callback has yet to
    run. *)
Record FuseSidebarComponent : Type := {
  name : option string;
  align : Align;
  opened : bool;
  lockedOpen : option string;
  isLockedOpen : option bool;
  unfolded : option bool;
  _folded : option bool;
  _wasActive : option bool;
  _backdrop : option element;
  _player : option (element * fade);
  _onMediaChangeSubscription : option Subscription;
  nativeElement : element;
  dom : Dom;
  calls : list call;
  pendingDone : nat
}.

(** Truth value of a boolean field that may be [undefined]. *)
Definition on (field : option bool) : bool := default false field.

(** Truth value of an optional string input: [undefined] and [''] are
    falsy. *)
Definition given (field : option string) : bool :=
  match field with
  | Some s => negb (String.eqb s "")
  | None => false
  end.

Section assignments.
Context (this : FuseSidebarComponent).

(** The [@Input] bindings that are plain fields. *)
Definition with_inputs (n : option string) (a : Align) (l : option string) :=
  {| name := n; align := a; opened := opened this; lockedOpen := l;
     isLockedOpen := isLockedOpen this; unfolded := unfolded this;
     _folded := _folded this; _wasActive := _wasActive this;
     _backdrop := _backdrop this; _player := _player this;
     _onMediaChangeSubscription := _onMediaChangeSubscription this;
     nativeElement := nativeElement this; dom := dom this;
     calls := calls this; pendingDone := pendingDone this |}.

Definition with_align (v : Align) :=
  {| name := name this; align := v; opened := opened this;
     lockedOpen := lockedOpen this; isLockedOpen := isLockedOpen this;
     unfolded := unfolded this; _folded := _folded this;
     _wasActive := _wasActive this; _backdrop := _backdrop this;
     _player := _player this;
     _onMediaChangeSubscription := _onMediaChangeSubscription this;
     nativeElement := nativeElement this; dom := dom this;
     calls := calls this; pendingDone := pendingDone this |}.

Definition with_opened (v : bool) :=
  {| name := name this; align := align this; opened := v;
     lockedOpen := lockedOpen this; isLockedOpen := isLockedOpen this;
     unfolded := unfolded this; _folded := _folded this;
     _wasActive := _wasActive this; _backdrop := _backdrop this;
     _player := _player this;
     _onMediaChangeSubscription := _onMediaChangeSubscription this;
     nativeElement := nativeElement this; dom := dom this;
     calls := calls this; pendingDone := pendingDone this |}.

Definition with_isLockedOpen (v : option bool) :=
  {| name := name this; align := align this; opened := opened this;
     lockedOpen := lockedOpen this; isLockedOpen := v;
     unfolded := unfolded this; _folded := _folded this;
     _wasActive := _wasActive this; _backdrop := _backdrop this;
     _player := _player this;
     _onMediaChangeSubscription := _onMediaChangeSubscription this;
     nativeElement := nativeElement this; dom := dom this;
     calls := calls this; pendingDone := pendingDone this |}.

Definition with_unfolded (v : option bool) :=
  {| name := name this; align := align this; opened := opened this;
     lockedOpen := lockedOpen this; isLockedOpen := isLockedOpen this;
     unfolded := v; _folded := _folded this; _wasActive := _wasActive this;
     _backdrop := _backdrop this; _player := _player this;
     _onMediaChangeSubscription := _onMediaChangeSubscription this;
     nativeElement := nativeElement this; dom := dom this;
     calls := calls this; pendingDone := pendingDone this |}.

Definition with__folded (v : option bool) :=
  {| name := name this; align := align this; opened := opened this;
     lockedOpen := lockedOpen this; isLockedOpen := isLockedOpen this;
     unfolded := unfolded this; _folded := v; _wasActive := _wasActive this;
     _backdrop := _backdrop this; _player := _player this;
     _onMediaChangeSubscription := _onMediaChangeSubscription this;
     nativeElement := nativeElement this; dom := dom this;
     calls := calls this; pendingDone := pendingDone this |}.

Definition with__wasActive (v : option bool) :=
  {| name := name this; align := align this; opened := opened this;
     lockedOpen := lockedOpen this; isLockedOpen := isLockedOpen this;
     unfolded := unfolded this; _folded := _folded this; _wasActive := v;
     _backdrop := _backdrop this; _player := _player this;
     _onMediaChangeSubscription := _onMediaChangeSubscription this;
     nativeElement := nativeElement this; dom := dom this;
     calls := calls this; pendingDone := pendingDone this |}.

Definition with__backdrop (v : option element) :=
  {| name := name this; align := align this; opened := opened this;
     lockedOpen := lockedOpen this; isLockedOpen := isLockedOpen this;
     unfolded := unfolded this; _folded := _folded this;
     _wasActive := _wasActive this; _backdrop := v; _player := _player this;
     _onMediaChangeSubscription := _onMediaChangeSubscription this;
     nativeElement := nativeElement this; dom := dom this;
     calls := calls this; pendingDone := pendingDone this |}.

Definition with__player (v : option (element * fade)) :=
  {| name := name this; align := align this; opened := opened this;
     lockedOpen := lockedOpen this; isLockedOpen := isLockedOpen this;
     unfolded := unfolded this; _folded := _folded this;
     _wasActive := _wasActive this; _backdrop := _backdrop this;
     _player := v;
     _onMediaChangeSubscription := _onMediaChangeSubscription this;
     nativeElement := nativeElement this; dom := dom this;
     calls := calls this; pendingDone := pendingDone this |}.

Definition with__onMediaChangeSubscription (v : option Subscription) :=
  {| name := name this; align := align this; opened := opened this;
     lockedOpen := lockedOpen this; isLockedOpen := isLockedOpen this;
     unfolded := unfolded this; _folded := _folded this;
     _wasActive := _wasActive this; _backdrop := _backdrop this;
     _player := _player this; _onMediaChangeSubscription := v;
     nativeElement := nativeElement this; dom := dom this;
     calls := calls this; pendingDone := pendingDone this |}.

Definition with_dom (v : Dom) :=
  {| name := name this; align := align this; opened := opened this;
     lockedOpen := lockedOpen this; isLockedOpen := isLockedOpen this;
     unfolded := unfolded this; _folded := _folded this;
     _wasActive := _wasActive this; _backdrop := _backdrop this;
     _player := _player this;
     _onMediaChangeSubscription := _onMediaChangeSubscription this;
     nativeElement := nativeElement this; dom := v; calls := calls this;
     pendingDone := pendingDone this |}.

Definition with_pendingDone (v : nat) :=
  {| name := name this; align := align this; opened := opened this;
     lockedOpen := lockedOpen this; isLockedOpen := isLockedOpen this;
     unfolded := unfolded this; _folded := _folded this;
     _wasActive := _wasActive this; _backdrop := _backdrop this;
     _player := _player this;
     _onMediaChangeSubscription := _onMediaChangeSubscription this;
     nativeElement := nativeElement this; dom := dom this;
     calls := calls this; pendingDone := v |}.

(** Record a call made to a collaborator. *)
Definition called (c : call) :=
  {| name := name this; align := align this; opened := opened this;
     lockedOpen := lockedOpen this; isLockedOpen := isLockedOpen this;
     unfolded := unfolded this; _folded := _folded this;
     _wasActive := _wasActive this; _backdrop := _backdrop this;
     _player := _player this;
     _onMediaChangeSubscription := _onMediaChangeSubscription this;
     nativeElement := nativeElement this; dom := dom this;
     calls := calls this ++ [c]; pendingDone := pendingDone this |}.
End assignments.

(** *** Renderer *)

(** [renderer.setStyle(el, rule, val)] *)
Definition setStyle (el : element) (rule val : string) (this : FuseSidebarComponent) :=
  let d := dom this in
  called
    (with_dom this {| siblings := siblings d;
                      style := <[(el, rule) := val]> (style d);
                      fresh := fresh d |})
    (SetStyle el rule val).

(** [renderer.removeStyle(el, rule)] *)
Definition removeStyle (el : element) (rule : string) (this : FuseSidebarComponent) :=
  let d := dom this in
  called
    (with_dom this {| siblings := siblings d;
                      style := delete (el, rule) (style d);
                      fresh := fresh d |})
    (RemoveStyle el rule).

(** [renderer.createElement('div')]: the new element, and the component
    with the renderer having handed it out. *)
Definition createElement (this : FuseSidebarComponent) : element * FuseSidebarComponent :=
  let d := dom this in
  (fresh d,
   called
     (with_dom this {| siblings := siblings d; style := style d; fresh := S (fresh d) |})
     (CreateElement (fresh d))).

(** [renderer.appendChild(nativeElement.parentElement, el)] *)
Definition appendChild (el : element) (this : FuseSidebarComponent) :=
  let d := dom this in
  called
    (with_dom this {| siblings := siblings d ++ [el]; style := style d; fresh := fresh d |})
    (AppendChild el).

(** [el.parentNode.removeChild(el)] *)
Definition removeChild (el : element) (this : FuseSidebarComponent) :=
  let d := dom this in
  called
    (with_dom this {| siblings := filter (λ x, x ≠ el) (siblings d);
                      style := style d; fresh := fresh d |})
    (RemoveChild el).

Definition nextElementSibling (this : FuseSidebarComponent) : option element :=
  next_of (nativeElement this) (siblings (dom this)).

Definition previousElementSibling (this : FuseSidebarComponent) : option element :=
  previous_of (nativeElement this) (siblings (dom this)).

(** *** Accessors of [folded] *)

Definition styleValue : string := "64px".

(** [set folded(value)] *)
Definition folded_set (value : bool) (this : FuseSidebarComponent) : FuseSidebarComponent :=
  if negb (opened this) then this
  else
    let this := with__folded this (Some value) in
    let '(sibling, styleRule) :=
      match align this with
      | left => (nextElementSibling this, "marginLeft")
      | right => (previousElementSibling this, "marginRight")
      end in
    match sibling with
    | None => this
    | Some sibling =>
        if value then setStyle sibling styleRule styleValue this
        else removeStyle sibling styleRule this
    end.

(** [get folded()] *)
Definition folded (this : FuseSidebarComponent) : option bool := _folded this.

(** *** Backdrop *)

Definition showBackdrop (this : FuseSidebarComponent) : FuseSidebarComponent :=
  let '(backdrop, this) := createElement this in
  let this := with__backdrop this (Some backdrop) in
  let this := called this (AddClass backdrop "fuse-sidebar-overlay") in
  let this := appendChild backdrop this in
  let this := with__player this (Some (backdrop, FadeIn)) in
  called this (Play backdrop FadeIn).

Definition hideBackdrop (this : FuseSidebarComponent) : FuseSidebarComponent :=
  match _backdrop this with
  | None => this
  | Some backdrop =>
      let this := with__player this (Some (backdrop, FadeOut)) in
      let this := called this (Play backdrop FadeOut) in
      with_pendingDone this (S (pendingDone this))
  end.

(** The callback [hideBackdrop] hands to [onDone], run when a fade-out
    finishes. *)
Definition onDone (this : FuseSidebarComponent) : FuseSidebarComponent :=
  match pendingDone this with
  | 0 => this
  | S n =>
      let this := with_pendingDone this n in
      match _backdrop this with
      | Some backdrop => with__backdrop (removeChild backdrop this) None
      | None => this
      end
  end.

(** *** Methods *)

Definition open (this : FuseSidebarComponent) : FuseSidebarComponent :=
  if opened this || on (isLockedOpen this) then this
  else
    let this := showBackdrop this in
    with_opened this true.

Definition close (this : FuseSidebarComponent) : FuseSidebarComponent :=
  if negb (opened this) || on (isLockedOpen this) then this
  else
    let this := hideBackdrop this in
    with_opened this false.

Definition toggleOpen (this : FuseSidebarComponent) : FuseSidebarComponent :=
  if opened this then close this else open this.

Definition onMouseEnter (this : FuseSidebarComponent) : FuseSidebarComponent :=
  if negb (on (folded this)) then this else with_unfolded this (Some true).

Definition onMouseLeave (this : FuseSidebarComponent) : FuseSidebarComponent :=
  if negb (on (folded this)) then this else with_unfolded this (Some false).

Definition fold (this : FuseSidebarComponent) : FuseSidebarComponent :=
  if on (folded this) then this else folded_set true this.

Definition unfold (this : FuseSidebarComponent) : FuseSidebarComponent :=
  if negb (on (folded this)) then this else folded_set false this.

Definition toggleFold (this : FuseSidebarComponent) : FuseSidebarComponent :=
  if on (folded this) then unfold this else fold this.

(** *** Life cycle *)

(** The component after a hook or handler has run, with the exception it
    threw, if any; assignments made before the exception stay. *)
Definition outcome : Type := FuseSidebarComponent * option exn.

(** The constructor, given the host element and the document around it. *)
Definition constructor (el : element) (d : Dom) : FuseSidebarComponent :=
  let this :=
    {| name := None; align := left; opened := false; lockedOpen := None;
       isLockedOpen := None; unfolded := None; _folded := None;
       _wasActive := None; _backdrop := None; _player := None;
       _onMediaChangeSubscription := None;
       nativeElement := el; dom := d; calls := []; pendingDone := 0 |} in
  let this := with_opened this false in
  let this := folded_set false this in
  with_align this left.

Definition _setupAlignment (this : FuseSidebarComponent) : FuseSidebarComponent :=
  match align this with
  | right => called this (AddClass (nativeElement this) "right-aligned")
  | left => called this (AddClass (nativeElement this) "left-aligned")
  end.

(** [this.fuseConfigService.config.layout.navigationFolded] *)
Definition navigationFolded (cfg : FuseConfigService) : completion value :=
  get (prop (config cfg) "layout") "navigationFolded".

(** The handler subscribed to [onMediaChange]; [isActive] is what
    [observableMedia.isActive(this.lockedOpen)] answers at that moment. *)
Definition onMediaChange (isActive : bool) (cfg : FuseConfigService)
    (this : FuseSidebarComponent) : outcome :=
  if bool_decide (_wasActive this = Some isActive) then (this, None)
  else if isActive then
    let this := with_isLockedOpen this (Some true) in
    let this := with_opened this true in
    match navigationFolded cfg with
    | Throw e => (this, Some e)
    | Normal setting =>
        let this := if truthy setting then fold this else this in
        let this := hideBackdrop this in
        (with__wasActive this (Some isActive), None)
    end
  else
    let this := with_isLockedOpen this (Some false) in
    let this := unfold this in
    let this := with_opened this false in
    (with__wasActive this (Some isActive), None).

(** [onMediaChange] is a [BehaviorSubject]: subscribing runs the handler
    once at once, before [subscribe] returns the subscription; an
    exception of that run leaves [subscribe] (RxJS 5), so the field is
    then not assigned. *)
Definition _setupLockedOpen (isActive : bool) (cfg : FuseConfigService)
    (this : FuseSidebarComponent) : outcome :=
  if negb (given (lockedOpen this)) then (this, None)
  else
    let this := with__wasActive this (Some false) in
    let this := called this Subscribe in
    match onMediaChange isActive cfg this with
    | (this, Some e) => (this, Some e)
    | (this, None) =>
        (with__onMediaChangeSubscription this (Some {| closed := false |}), None)
    end.

Definition ngOnInit (isActive : bool) (cfg : FuseConfigService)
    (this : FuseSidebarComponent) : outcome :=
  let this := called this (Register (name this)) in
  let this := _setupAlignment this in
  _setupLockedOpen isActive cfg this.

Definition ngOnDestroy (this : FuseSidebarComponent) : outcome :=
  let this := if on (folded this) then unfold this else this in
  let this := called this (Unregister (name this)) in
  match _onMediaChangeSubscription this with
  | None => (this, Some TypeError)
  | Some _ =>
      let this := called this Unsubscribe in
      (with__onMediaChangeSubscription this (Some {| closed := true |}), None)
  end.

(** *** Runs *)

(** What can reach a mounted sidebar: calls of its public methods, a
    write to the [folded] input, pointer events, a media change (with the
    answer of the media query and the configuration store of that
    moment), the end of a fade-out, a click on the backdrop. *)
Inductive event : Type :=
  | Open | Close | ToggleOpen
  | Fold | Unfold | ToggleFold
  | FoldedInput (value : bool)
  | MouseEnter | MouseLeave
  | MediaChange (isActive : bool) (cfg : FuseConfigService)
  | AnimationDone
  | BackdropClick.

Definition handle (this : FuseSidebarComponent) (e : event) : FuseSidebarComponent :=
  match e with
  | Open => open this
  | Close => close this
  | ToggleOpen => toggleOpen this
  | Fold => fold this
  | Unfold => unfold this
  | ToggleFold => toggleFold this
  | FoldedInput value => folded_set value this
  | MouseEnter => onMouseEnter this
  | MouseLeave => onMouseLeave this
  | MediaChange isActive cfg =>
      match _onMediaChangeSubscription this with
      | Some {| closed := false |} => fst (onMediaChange isActive cfg this)
      | _ => this
      end
  | AnimationDone => onDone this
  | BackdropClick => close this
  end.

Definition run (events : list event) (this : FuseSidebarComponent) : FuseSidebarComponent :=
  foldl handle this events.

(** A sidebar as the framework mounts it: constructed, inputs bound,
    [ngOnInit] run. *)
Definition mounted (el : element) (d : Dom) (n : option string) (a : Align)
    (l : option string) (isActive : bool) (cfg : FuseConfigService) : outcome :=
  ngOnInit isActive cfg (with_inputs (constructor el d) n a l).

End Sidebar.

(** ** match-media.service.ts *)

Module MatchMedia.

(** The service: the alias last seen, and the [BehaviorSubject]
    [onMediaChange] kept as the values it has been given, oldest first
    (it is created holding [''] ). *)
Record FuseMatchMediaService : Type := {
  activeMediaQuery : string;
  onMediaChange : list string
}.

Definition constructor : FuseMatchMediaService :=
  {| activeMediaQuery := ""; onMediaChange := [""] |}.

(** The subscriber attached to [observableMedia]; [mqAlias] is
    [change.mqAlias]. *)
Definition onChange (this : FuseMatchMediaService) (mqAlias : string)
    : FuseMatchMediaService :=
  if negb (String.eqb (activeMediaQuery this) mqAlias)
  then {| activeMediaQuery := mqAlias;
          onMediaChange := onMediaChange this ++ [mqAlias] |}
  else this.

Definition run (changes : list string) (this : FuseMatchMediaService)
    : FuseMatchMediaService :=
  foldl onChange this changes.

End MatchMedia.

(** ** Subscribers of the configuration store *)

(** What a subscriber of [onConfigChanged] is handed: on subscription the
    value the [BehaviorSubject] holds, then every later value in order.  A
    callback that throws ends the delivery. *)
Module Subscriber.
Import Config.

Section delivery.
Context {C : Type} (callback : obj → C → completion C).

Definition deliver (values : list obj) (c : C) : completion C :=
  foldl (λ acc v, acc ≫= callback v) (Normal c) values.

(** [subject.subscribe(callback)] on a store: the replay of the current
    value. *)
Definition subscribe (fuseConfig : FuseConfigService) (c : C) : completion C :=
  match last (onConfigChanged fuseConfig) with
  | Some current => callback current c
  | None => Normal c
  end.
End delivery.

(** The values a store gives its subject while it goes from [before] to
    [after]. *)
Definition emitted_between (before after : FuseConfigService) : list obj :=
  drop (length (onConfigChanged before)) (onConfigChanged after).

End Subscriber.

(** ** search-bar.component.ts *)

Module SearchBar.
Import Config.

(** [onInput] is the [EventEmitter], kept as the values emitted. *)
Record FuseSearchBarComponent : Type := {
  collapsed : bool;
  toolbarColor : value;
  onInput : list value
}.

(** The callback given to [fuseConfig.onConfigChanged.subscribe]. *)
Definition onSettings (newSettings : obj) (this : FuseSearchBarComponent)
    : completion FuseSearchBarComponent :=
  toolbar ← get (prop newSettings "colorClasses") "toolbar";
  Normal {| collapsed := collapsed this; toolbarColor := toolbar;
            onInput := onInput this |}.

Definition constructor (fuseConfig : FuseConfigService)
    : completion FuseSearchBarComponent :=
  let this := {| collapsed := true; toolbarColor := VUndefined; onInput := [] |} in
  Subscriber.subscribe onSettings fuseConfig this.

Definition collapse (this : FuseSearchBarComponent) : FuseSearchBarComponent :=
  {| collapsed := true; toolbarColor := toolbarColor this; onInput := onInput this |}.

Definition expand (this : FuseSearchBarComponent) : FuseSearchBarComponent :=
  {| collapsed := false; toolbarColor := toolbarColor this; onInput := onInput this |}.

(** [search(event)]: emits [event.target.value]. *)
Definition search (event : value) (this : FuseSearchBarComponent)
    : completion FuseSearchBarComponent :=
  target ← get event "target";
  value ← get target "value";
  Normal {| collapsed := collapsed this; toolbarColor := toolbarColor this;
            onInput := onInput this ++ [value] |}.

End SearchBar.

(** ** main.component.ts *)

Module Main.
Import Config.

(** [bodyClassName] is [document.body.className], [subscribed] whether
    the subscription to the store is still open.  ([addClass] and
    [removeClass] only hand their argument to the renderer and are left
    out.) *)
Record FuseMainComponent : Type := {
  fuseSettings : value;
  layoutMode : value;
  subscribed : bool;
  bodyClassName : string
}.

(** The callback given to [fuseConfig.onConfigChanged.subscribe]. *)
Definition onSettings (newSettings : obj) (this : FuseMainComponent)
    : completion FuseMainComponent :=
  let this := {| fuseSettings := VObj newSettings; layoutMode := layoutMode this;
                 subscribed := subscribed this;
                 bodyClassName := bodyClassName this |} in
  layout ← get (fuseSettings this) "layout";
  mode ← get layout "mode";
  Normal {| fuseSettings := fuseSettings this; layoutMode := mode;
            subscribed := subscribed this;
            bodyClassName := bodyClassName this |}.

Definition constructor (fuseConfig : FuseConfigService) (platform : Platform)
    (body : string) : completion FuseMainComponent :=
  let this := {| fuseSettings := VUndefined; layoutMode := VUndefined;
                 subscribed := true; bodyClassName := body |} in
  this ← Subscriber.subscribe onSettings fuseConfig this;
  Normal
    (if ANDROID platform || IOS platform
     then {| fuseSettings := fuseSettings this; layoutMode := layoutMode this;
             subscribed := subscribed this;
             bodyClassName := bodyClassName this +:+ " is-mobile" |}
     else this).

Definition ngOnDestroy (this : FuseMainComponent) : FuseMainComponent :=
  {| fuseSettings := fuseSettings this; layoutMode := layoutMode this;
     subscribed := false;
     bodyClassName := bodyClassName this |}.

End Main.

(** * Vocabulary of the statements *)

Section vocabulary.
Import Config.

(** Every key of [old] is a key of [new]. *)
Definition keeps (old new : obj) : Prop :=
  ∀ k, is_Some (old !! k) → is_Some (new !! k).

(** [c] has subsection [sec] as an object with every key that the
    subsection has in [d]. *)
Definition keeps_section (sec : string) (d c : obj) : Prop :=
  ∃ m, c !! sec = Some (VObj m) ∧ keeps (own_props (prop d sec)) m.

(** [c] is fully populated with respect to [d]: no top-level key of [d]
    and no key of its two subsections is missing from [c]. *)
Definition populated (d c : obj) : Prop :=
  keeps d c ∧ keeps_section "layout" d c ∧ keeps_section "colorClasses" d c.

Definition has_keys (ks : list string) (m : obj) : Prop :=
  Forall (λ k, is_Some (m !! k)) ks.

Definition desktop : Platform := {| ANDROID := false; IOS := false |}.

(** The reset on navigation start, read literally: afterwards the layout
    subsection is the layout of the stored default. *)
Definition layout_is_default (this' : FuseConfigService) : Prop :=
  Normal (prop (config this') "layout") = get (defaultConfig this') "layout".

(** A page that overrides the layout mode and adds a layout key of its
    own. *)
Definition boxed_with_extra_key : list action :=
  [ SetConfig (VObj {[ "layout" :=
      VObj (list_to_map [("mode", VStr "boxed"); ("extra", VStr "x")]) ]}) ].

(** A page that overrides the layout mode and a colour class. *)
Definition boxed_with_colour : list action :=
  [ SetConfig (VObj (list_to_map
      [ ("layout", VObj {[ "mode" := VStr "boxed" ]});
        ("colorClasses", VObj {[ "toolbar" := VStr "mat-red-500-bg" ]}) ])) ].

(** The tree [[{type:'group', children:[{type:'item', title:'Sample',
    url:'/sample'}]}]]. *)
Definition sample_navigation : list Navigation.navItem :=
  [ Navigation.NavItem (VStr "group") VUndefined VUndefined VUndefined
      (Some [ Navigation.NavItem (VStr "item") (VStr "Sample") VUndefined
                (VStr "/sample") None ]) ].

(** A document to run the sidebar in: the host element [0] followed by
    the content element [1], nothing styled yet. *)
Definition page : Sidebar.Dom :=
  {| Sidebar.siblings := [0; 1]; Sidebar.style := ∅; Sidebar.fresh := 2 |}.

(** The element whose margin the [folded] setter adjusts, and the rule. *)
Definition margin_target (this : Sidebar.FuseSidebarComponent) : option Sidebar.element * string :=
  match Sidebar.align this with
  | Sidebar.left => (Sidebar.nextElementSibling this, "marginLeft")
  | Sidebar.right => (Sidebar.previousElementSibling this, "marginRight")
  end.

(** A folded sidebar is an opened one. *)
Definition folded_only_if_opened (this : Sidebar.FuseSidebarComponent) : Prop :=
  Sidebar.on (Sidebar.folded this) = true → Sidebar.opened this = true.

(** The store a desktop browser builds from the compile-time default. *)
Definition default_store : FuseConfigService :=
  {| config := own_props DEFAULT_CONFIG;
     defaultConfig := DEFAULT_CONFIG;
     onConfigChanged := [own_props DEFAULT_CONFIG] |}.

(** Two components agree on what [ngOnInit] wires up. *)
Definition same_wiring (a b : Sidebar.FuseSidebarComponent) : Prop :=
  Sidebar.lockedOpen a = Sidebar.lockedOpen b ∧
  Sidebar._onMediaChangeSubscription a = Sidebar._onMediaChangeSubscription b.

(** A store whose current layout asks for a folded navigation. *)
Definition folded_store : FuseConfigService :=
  Config.run
    [ SetConfig (VObj {[ "layout" := VObj {[ "navigationFolded" := VBool true ]} ]}) ]
    default_store.

(** The action hands [setConfig] an argument that has the top-level key
    [k] itself. *)
Definition writes_key (k : string) (a : action) : Prop :=
  match a with
  | SetConfig arg => is_Some (own_props arg !! k)
  | Route NavigationStart => k = "layout"
  | Route OtherEvent => False
  end.

Definition mobile : Platform := {| ANDROID := true; IOS := false |}.

(** A page that only changes the toolbar colour. *)
Definition red_toolbar : list action :=
  [ SetConfig (VObj {[ "colorClasses" := VObj {[ "toolbar" := VStr "mat-red-500-bg" ]} ]}) ].

(** Both subsections of a configuration are objects. *)
Definition has_sections (c : obj) : Prop :=
  (∃ l, c !! "layout" = Some (VObj l)) ∧ (∃ cc, c !! "colorClasses" = Some (VObj cc)).

(** An injected configuration with a layout but no colour classes. *)
Definition layout_only : value :=
  VObj {[ "layout" := VObj {[ "mode" := VStr "boxed" ]} ]}.

(** [c.colorClasses.toolbar] and [c.layout.mode] of a configuration
    whose subsections can be read. *)
Definition toolbar_of (c : obj) : value :=
  prop (own_props (prop c "colorClasses")) "toolbar".

Definition mode_of (c : obj) : value :=
  prop (own_props (prop c "layout")) "mode".

(** A record as [getFlatNavigation] pushes them: exactly the four keys,
    tagged [item], the icon either the node's truthy icon or [false]. *)
Definition flat_record (entry : value) : Prop :=
  ∃ title icon url,
    entry = VObj (list_to_map [ ("title", title); ("type", VStr "item");
                                 ("icon", icon); ("url", url) ]) ∧
    (truthy icon = true ∨ icon = VBool false).

(** No two neighbours of the list are equal. *)
Fixpoint no_repeat (l : list string) : Prop :=
  match l with
  | x :: (y :: _) as r => x ≠ y ∧ no_repeat r
  | _ => True
  end.

(** The element [x] is in the document, was not handed out after this
    moment, and is not the backdrop the sidebar currently holds. *)
Definition foreign (x : Sidebar.element) (this : Sidebar.FuseSidebarComponent) : Prop :=
  x ∈ Sidebar.siblings (Sidebar.dom this) ∧
  x < Sidebar.fresh (Sidebar.dom this) ∧
  Sidebar._backdrop this ≠ Some x.

(** A locked-open sidebar is an opened one. *)
Definition locked_only_if_opened (this : Sidebar.FuseSidebarComponent) : Prop :=
  Sidebar.on (Sidebar.isLockedOpen this) = true → Sidebar.opened this = true.

(** Two components agree on [opened] and [isLockedOpen]. *)
Definition same_lock (a b : Sidebar.FuseSidebarComponent) : Prop :=
  Sidebar.opened a = Sidebar.opened b ∧
  Sidebar.isLockedOpen a = Sidebar.isLockedOpen b.

(** A document in which the sidebar is the last child of its parent. *)
Definition page_ending_with_sidebar : Sidebar.Dom :=
  {| Sidebar.siblings := [1; 0]; Sidebar.style := ∅; Sidebar.fresh := 2 |}.

End vocabulary.

(** Unfold the methods down to the field assignments and split on every
    test. *)
Ltac by_cases :=
  repeat progress
    unfold same_wiring, Sidebar.onMediaChange, Sidebar.toggleOpen,
      Sidebar.toggleFold, Sidebar.open, Sidebar.close, Sidebar.fold,
      Sidebar.unfold, Sidebar.onMouseEnter, Sidebar.onMouseLeave,
      Sidebar.onDone, Sidebar.folded_set, Sidebar.showBackdrop,
      Sidebar.hideBackdrop, Sidebar.createElement, Sidebar.appendChild,
      Sidebar.removeChild, Sidebar.setStyle, Sidebar.removeStyle;
  repeat case_match; cbn; done.

(** Unfold the methods down to the field assignments. *)
Ltac unfold_methods :=
  repeat progress
    unfold Sidebar.onMediaChange, Sidebar.toggleOpen, Sidebar.toggleFold,
      Sidebar.open, Sidebar.close, Sidebar.fold, Sidebar.unfold,
      Sidebar.onMouseEnter, Sidebar.onMouseLeave, Sidebar.onDone,
      Sidebar.folded_set, Sidebar.showBackdrop, Sidebar.hideBackdrop,
      Sidebar.createElement, Sidebar.appendChild, Sidebar.removeChild,
      Sidebar.setStyle, Sidebar.removeStyle.

Ltac same_lock_by_cases :=
  unfold same_lock; unfold_methods; repeat case_match; done.

(** * Properties *)

(** ** Configuration store *)

Section config_facts.
Import Config.

Lemma keeps_refl m : keeps m m.
Proof. by intros k. Qed.

Lemma keeps_trans a b c : keeps a b → keeps b c → keeps a c.
Proof. intros Hab Hbc k Hk. by apply Hbc, Hab. Qed.

Lemma keeps_spread2 a b : keeps a (spread2 a b).
Proof.
  intros k Hk. unfold spread2. apply lookup_union_is_Some. by right.
Qed.
(** What a successful [setConfig] leaves in the three places it writes. *)
Lemma setConfig_Normal arg this this' :
  setConfig arg this = Normal this' →
  ∃ al ac,
    get arg "layout" = Normal al ∧ get arg "colorClasses" = Normal ac ∧
    defaultConfig this' = defaultConfig this ∧
    config this' !! "layout" =
      Some (VObj (spread2 (own_props (prop (config this) "layout")) (own_props al))) ∧
    config this' !! "colorClasses" =
      Some (VObj (spread2 (own_props (prop (config this) "colorClasses")) (own_props ac))) ∧
    (∀ k, k ≠ "layout" → k ≠ "colorClasses" →
       config this' !! k = spread2 (config this) (own_props arg) !! k).
Proof.
  unfold setConfig. intros H.
  destruct (get arg "layout") as [al|e] eqn:Hl; [|discriminate].
  destruct (get arg "colorClasses") as [ac|e] eqn:Hc; [|discriminate].
  cbn in H. injection H as <-. exists al, ac. cbn.
  repeat split; try done.
  - rewrite lookup_insert_ne by done. by rewrite lookup_insert_eq.
  - by rewrite lookup_insert_eq.
  - intros k H1 H2. by rewrite !lookup_insert_ne.
Qed.

(** The object that [prop] reads is the one stored under the key. *)
Lemma prop_lookup (m : obj) k v : m !! k = Some v → prop m k = v.
Proof. unfold prop. by intros ->. Qed.

Lemma keeps_section_step sec d c c' x :
  keeps_section sec d c →
  c' !! sec = Some (VObj (spread2 (own_props (prop c sec)) x)) →
  keeps_section sec d c'.
Proof.
  intros (m & Hm & Hk) Hc'. eexists; split; [exact Hc'|].
  rewrite (prop_lookup _ _ _ Hm). cbn.
  eapply keeps_trans; [exact Hk | apply keeps_spread2].
Qed.

(** [setConfig] never removes a key, whatever it is given. *)
Lemma setConfig_populated d arg this this' :
  setConfig arg this = Normal this' →
  populated d (config this) → populated d (config this').
Proof.
  intros (al & ac & _ & _ & _ & Hl & Hc & Hk)%setConfig_Normal (Htop & Hlay & Hcol).
  split; [|split].
  - intros k Hd.
    destruct (decide (k = "layout")) as [->|Hn1]; [by rewrite Hl|].
    destruct (decide (k = "colorClasses")) as [->|Hn2]; [by rewrite Hc|].
    rewrite Hk by done. by apply keeps_spread2, Htop.
  - by eapply keeps_section_step.
  - by eapply keeps_section_step.
Qed.

Lemma perform_populated d a this this' :
  perform a this = Normal this' →
  populated d (config this) → populated d (config this').
Proof.
  destruct a as [arg|[|]]; cbn [perform onRouterEvent].
  - apply setConfig_populated.
  - destruct (get (defaultConfig this) "layout") as [dl|e]; [|discriminate].
    apply setConfig_populated.
  - by intros [= <-].
Qed.

Lemma step_populated d a this :
  populated d (config this) → populated d (config (step this a)).
Proof.
  intros H. unfold step.
  destruct (perform a this) as [this'|e] eqn:E; [|done].
  by eapply perform_populated.
Qed.

Lemma run_populated d acts this :
  populated d (config this) → populated d (config (run acts this)).
Proof.
  unfold run. revert this.
  induction acts as [|a acts IH]; intros this H; cbn; [done|].
  by apply IH, step_populated.
Qed.

(** A store built without injected configuration starts with every key of
    [DEFAULT_CONFIG]; on a mobile platform only the value of
    [customScrollbars] differs. *)
Lemma constructor_default_populated platform this :
  constructor platform VUndefined = Normal this →
  populated (own_props DEFAULT_CONFIG) (config this).
Proof.
  unfold constructor. cbn [truthy].
  destruct (ANDROID platform || IOS platform); cbn; intros [= <-]; cbn.
  - split; [|split].
    + intros k Hk. apply lookup_insert_is_Some'. by right.
    + exists DEFAULT_layout. split; [done|apply keeps_refl].
    + exists DEFAULT_colorClasses. split; [done|apply keeps_refl].
  - split; [apply keeps_refl|split].
    + exists DEFAULT_layout. split; [done|apply keeps_refl].
    + exists DEFAULT_colorClasses. split; [done|apply keeps_refl].
Qed.

Lemma keeps_has_keys ks d m :
  has_keys ks d → keeps d m → has_keys ks m.
Proof.
  unfold has_keys. rewrite !Forall_forall. intros Hd Hk k Hin. by apply Hk, Hd.
Qed.

(** C1. Whatever sequence of [setConfig] calls (and router events) a store
    built from the default configuration goes through, its configuration
    keeps every field of the default: the four top-level keys, the five
    keys of [layout] and the three keys of [colorClasses]; more generally
    every key of [DEFAULT_CONFIG] and of its two subsections. *)
Theorem setConfig_keeps_default_fields platform this0 acts :
  constructor platform VUndefined = Normal this0 →
  let c := config (run acts this0) in
  populated (own_props DEFAULT_CONFIG) c ∧
  has_keys ["layout"; "colorClasses"; "customScrollbars"; "routerAnimation"] c ∧
  (∃ layout, c !! "layout" = Some (VObj layout) ∧
     has_keys ["navigation"; "navigationFolded"; "toolbar"; "footer"; "mode"] layout) ∧
  (∃ colorClasses, c !! "colorClasses" = Some (VObj colorClasses) ∧
     has_keys ["toolbar"; "navbar"; "footer"] colorClasses).
Proof.
  intros H0 c.
  assert (Hp : populated (own_props DEFAULT_CONFIG) c)
    by by apply run_populated, (constructor_default_populated platform).
  split; [exact Hp|].
  destruct Hp as (Htop & (l & Hl & Hlk) & (cc & Hc & Hck)).
  split; [|split].
  - eapply keeps_has_keys; [|exact Htop]. repeat constructor; by eexists.
  - exists l. split; [done|].
    eapply keeps_has_keys; [|exact Hlk]. repeat constructor; by eexists.
  - exists cc. split; [done|].
    eapply keeps_has_keys; [|exact Hck]. repeat constructor; by eexists.
Qed.

(** A page override, a call that throws and a navigation start on the
    desktop default store. *)
Lemma setConfig_keeps_default_fields_witness :
  ∃ this0, constructor desktop VUndefined = Normal this0 ∧
    has_keys ["layout"; "colorClasses"; "customScrollbars"; "routerAnimation"]
      (config (run (boxed_with_extra_key ++ [SetConfig VNull; Route NavigationStart]) this0)).
Proof.
  eexists. split; [reflexivity|].
  eapply (setConfig_keeps_default_fields desktop). reflexivity.
Defined.

(** *** Navigation start *)

Lemma setConfig_defaultConfig arg this this' :
  setConfig arg this = Normal this' → defaultConfig this' = defaultConfig this.
Proof. by intros (? & ? & _ & _ & H & _)%setConfig_Normal. Qed.

Lemma perform_defaultConfig a this this' :
  perform a this = Normal this' → defaultConfig this' = defaultConfig this.
Proof.
  destruct a as [arg|[|]]; cbn [perform onRouterEvent].
  - apply setConfig_defaultConfig.
  - destruct (get (defaultConfig this) "layout"); [|discriminate].
    apply setConfig_defaultConfig.
  - by intros [= <-].
Qed.

Lemma step_defaultConfig a this : defaultConfig (step this a) = defaultConfig this.
Proof.
  unfold step. destruct (perform a this) as [this'|e] eqn:E; [|done].
  by eapply perform_defaultConfig.
Qed.

Lemma run_defaultConfig acts this : defaultConfig (run acts this) = defaultConfig this.
Proof.
  unfold run. revert this. induction acts as [|a acts IH]; intros this; cbn; [done|].
  by rewrite IH, step_defaultConfig.
Qed.

(** The stored default is never [undefined] or [null], so reading its
    layout cannot throw. *)
Lemma constructor_default_readable platform custom this k :
  constructor platform custom = Normal this →
  ∃ v, get (defaultConfig this) k = Normal v.
Proof.
  unfold constructor.
  destruct (ANDROID platform || IOS platform).
  - destruct (truthy custom) eqn:T; [destruct custom|]; try discriminate;
      cbn; intros [= <-]; cbn; by eexists.
  - destruct (truthy custom) eqn:T; [destruct custom|]; try discriminate;
      cbn; intros [= <-]; cbn; by eexists.
Qed.

Lemma onRouterEvent_NavigationStart this dl :
  get (defaultConfig this) "layout" = Normal dl →
  onRouterEvent NavigationStart this = setConfig (VObj {[ "layout" := dl ]}) this.
Proof. intros H. unfold onRouterEvent. by rewrite H. Qed.

(** Given an object, [setConfig] does not throw. *)
Lemma setConfig_object m this : ∃ this', setConfig (VObj m) this = Normal this'.
Proof. by eexists. Qed.

(** C2, counterexample. A layout key that is not in the stored default
    survives the navigation start: the layout subsection is then not the
    default's layout. *)
Lemma navigation_start_keeps_extra_layout_key :
  ∃ this0 this',
    constructor desktop VUndefined = Normal this0 ∧
    onRouterEvent NavigationStart (run boxed_with_extra_key this0) = Normal this' ∧
    ¬ layout_is_default this'.
Proof.
  do 2 eexists. split; [reflexivity|]. split; [reflexivity|].
  unfold layout_is_default. intros H.
  apply (f_equal (λ r, match r with
                       | Normal (VObj m) => m !! "extra"
                       | _ => None
                       end)) in H.
  vm_compute in H. discriminate H.
Qed.

(** C2, as amended. On navigation start every key of the stored default's
    layout gets the default's value back, layout keys the default does not
    have keep theirs, the colour classes keep their entries, and every
    other top-level key (the scrollbar flag among them) keeps its value. *)
Theorem navigation_start_resets_default_layout_keys platform custom this0 acts :
  constructor platform custom = Normal this0 →
  let this := run acts this0 in
  ∃ this' default_layout layout',
    onRouterEvent NavigationStart this = Normal this' ∧
    get (defaultConfig this0) "layout" = Normal default_layout ∧
    config this' !! "layout" = Some (VObj layout') ∧
    (∀ k v, own_props default_layout !! k = Some v → layout' !! k = Some v) ∧
    (∀ k, own_props default_layout !! k = None →
       layout' !! k = own_props (prop (config this) "layout") !! k) ∧
    own_props (prop (config this') "colorClasses") =
      own_props (prop (config this) "colorClasses") ∧
    (∀ cc, config this !! "colorClasses" = Some (VObj cc) →
       config this' !! "colorClasses" = Some (VObj cc)) ∧
    (∀ k, k ≠ "layout" → k ≠ "colorClasses" → config this' !! k = config this !! k).
Proof.
  intros H0 this.
  destruct (constructor_default_readable _ _ _ "layout" H0) as [dl Hdl].
  assert (Hd : get (defaultConfig this) "layout" = Normal dl)
    by (unfold this; by rewrite run_defaultConfig).
  destruct (setConfig_object {["layout" := dl]} this) as [this' E].
  destruct (setConfig_Normal _ _ _ E) as (al & ac & Hal & Hac & _ & Hl & Hc & Hk).
  rewrite <- (onRouterEvent_NavigationStart _ _ Hd) in E.
  cbn in Hal, Hac. injection Hal as <-. injection Hac as <-.
  unfold prop at 2 in Hl. rewrite lookup_singleton_eq in Hl. cbn [default] in Hl.
  unfold prop at 2 in Hc. rewrite lookup_singleton_ne in Hc by done.
  cbn [default own_props] in Hc.
  unfold spread2 in Hl, Hc, Hk. rewrite (left_id_L ∅ (∪)) in Hc.
  exists this', dl, (own_props dl ∪ own_props (prop (config this) "layout")).
  split; [done|]. split; [done|]. split; [exact Hl|].
  split; [|split; [|split; [|split]]].
  - intros k v Hv. by apply lookup_union_Some_l.
  - intros k Hn. by apply lookup_union_r.
  - by rewrite (prop_lookup _ _ _ Hc).
  - intros cc Hcc. by rewrite Hc, (prop_lookup _ _ _ Hcc).
  - intros k H1 H2. rewrite Hk by done. cbn.
    apply lookup_union_r. by rewrite lookup_singleton_ne.
Qed.

(** The boxed mode goes back to [fullwidth]; the toolbar colour and the
    scrollbar flag stay. *)
Lemma navigation_start_resets_default_layout_keys_witness :
  ∃ this0 this' layout',
    constructor desktop VUndefined = Normal this0 ∧
    onRouterEvent NavigationStart (run boxed_with_colour this0) = Normal this' ∧
    own_props (prop (config (run boxed_with_colour this0)) "layout") !! "mode"
      = Some (VStr "boxed") ∧
    config this' !! "layout" = Some (VObj layout') ∧
    layout' !! "mode" = Some (VStr "fullwidth") ∧
    own_props (prop (config this') "colorClasses") !! "toolbar" = Some (VStr "mat-red-500-bg") ∧
    config this' !! "customScrollbars" = Some (VBool true).
Proof.
  destruct (navigation_start_resets_default_layout_keys
              desktop VUndefined _ boxed_with_colour eq_refl)
    as (this' & dl & layout' & E & Hdl & Hl & Hreset & _ & Hcc & _ & Hk).
  eexists _, this', layout'. split; [reflexivity|]. split; [exact E|].
  split; [reflexivity|]. split; [exact Hl|].
  injection Hdl as <-.
  split; [by apply Hreset|]. split; [by rewrite Hcc|].
  by rewrite Hk.
Defined.

End config_facts.

(** ** Navigation flattening *)

Section navigation_facts.
Import Navigation.

Lemma push_returned entry this : returned (push entry this) = returned this ++ [entry].
Proof. reflexivity. Qed.

(** A loop of [visit]s appends what each node contributes, in order. *)
Lemma foldl_visit_returned (contribution : navItem → list value) cs :
  Forall (λ c, ∀ this, returned (visit c this) = returned this ++ contribution c) cs →
  ∀ this,
    returned (foldl (λ this c, visit c this) this cs)
    = returned this ++ concat (map contribution cs).
Proof.
  induction 1 as [|c cs Hc _ IH]; intros this; cbn.
  - by rewrite app_nil_r.
  - by rewrite IH, Hc, <- app_assoc.
Qed.

Lemma visit_returned n this :
  returned (visit n this) = returned this ++ flatten_node n.
Proof.
  revert this. induction n as [ty ti ic u|ty ti ic u cs IH] using navItem_tree_ind;
    intros this; cbn [visit flatten_node type];
    destruct (is_string ty "item"); try reflexivity;
    destruct (is_string ty "collapse" || is_string ty "group");
    rewrite ?app_nil_r; try reflexivity.
  by apply foldl_visit_returned.
Qed.

Lemma getFlatNavigation_returned navigation this :
  returned (getFlatNavigation navigation this) = returned this ++ flatten navigation.
Proof.
  apply foldl_visit_returned, Forall_forall. intros c _ ?. apply visit_returned.
Qed.

Lemma concat_replicate_snoc {A} n (l : list A) :
  concat (replicate (S n) l) = concat (replicate n l) ++ l.
Proof.
  induction n as [|n IH]; cbn in *; [by rewrite app_nil_r|].
  by rewrite IH at 1; rewrite app_assoc.
Qed.

Lemma length_concat_replicate {A} n (l : list A) :
  length (concat (replicate n l)) = n * length l.
Proof. induction n as [|n IH]; cbn; [done|]. rewrite length_app, IH. lia. Qed.

Lemma repeated_calls_returned n navigation this :
  returned (repeated_calls n navigation this)
  = returned this ++ concat (replicate n (flatten navigation)).
Proof.
  induction n as [|n IH].
  - cbn. by rewrite app_nil_r.
  - unfold repeated_calls in *. rewrite Nat.iter_succ.
    rewrite getFlatNavigation_returned, IH, concat_replicate_snoc.
    by rewrite app_assoc.
Qed.

(** In a well-tagged tree the traversal meets every item. *)
Lemma flatten_node_length n :
  well_tagged n = true → length (flatten_node n) = item_count n.
Proof.
  induction n as [ty ti ic u|ty ti ic u cs IH] using navItem_tree_ind;
    cbn [well_tagged flatten_node item_count];
    destruct (is_string ty "item"); try done;
    destruct (is_string ty "collapse" || is_string ty "group"); try done.
  cbn [andb]. intros Hall.
  induction IH as [|c cs Hc _ IHcs]; cbn in *; [done|].
  apply andb_prop in Hall as [H1 H2].
  by rewrite length_app, Hc, IHcs.
Qed.

Lemma flatten_length navigation :
  forallb well_tagged navigation = true →
  length (flatten navigation) = item_leaves navigation.
Proof.
  unfold flatten, item_leaves.
  induction navigation as [|c cs IH]; cbn; [done|].
  intros [H1 H2]%andb_prop.
  by rewrite length_app, flatten_node_length, IH.
Qed.

(** C7. The accumulator is never reset: a call appends the flattened tree
    to whatever the instance holds, so on a new instance two calls with
    the same tree return every entry twice, [n] calls return [n] copies
    one after the other, and for a tree with [k] item leaves the list
    returned by the [n]-th call has length [n * k]. *)
Theorem repeated_flatten_appends navigation n :
  let once := returned (getFlatNavigation navigation new) in
  (∀ this, returned (getFlatNavigation navigation this) = returned this ++ once) ∧
  (∀ this, returned (repeated_calls n navigation this)
           = returned this ++ concat (replicate n once)) ∧
  returned (repeated_calls 2 navigation new) = once ++ once ∧
  returned (repeated_calls n navigation new) = concat (replicate n once) ∧
  length (returned (repeated_calls n navigation new)) = n * length once ∧
  (forallb well_tagged navigation = true →
     length once = item_leaves navigation ∧
     length (returned (repeated_calls n navigation new)) = n * item_leaves navigation).
Proof.
  intros once.
  assert (Ho : once = flatten navigation)
    by (unfold once; by rewrite getFlatNavigation_returned).
  rewrite Ho, !repeated_calls_returned. cbn [returned flatNavigation new app].
  split; [intros this; apply getFlatNavigation_returned|].
  split; [intros this; apply repeated_calls_returned|].
  split; [cbn; by rewrite app_nil_r|]. split; [done|].
  rewrite length_concat_replicate. split; [done|].
  intros Hw. by rewrite flatten_length.
Qed.

(** Three calls with the sample tree, which has one item leaf. *)
Lemma repeated_flatten_appends_witness :
  forallb well_tagged sample_navigation = true ∧
  length (returned (repeated_calls 3 sample_navigation new)) = 3 * 1.
Proof.
  split; [reflexivity|].
  apply (repeated_flatten_appends sample_navigation 3). reflexivity.
Defined.

(** C8. On an instance whose accumulator is empty the sample tree flattens
    to the one record of its item, with [icon] defaulted to [false]; and
    for every tree the call returns the depth-first, in-order list of the
    records of the items reached through collapse and group nodes.  A
    collapse or group node without children adds nothing, and the record
    of an item without [icon] has [icon: false]. *)
Theorem getFlatNavigation_depth_first :
  returned (getFlatNavigation sample_navigation new)
  = [ VObj (list_to_map
        [ ("title", VStr "Sample"); ("type", VStr "item");
          ("icon", VBool false); ("url", VStr "/sample") ]) ] ∧
  (∀ navigation, returned (getFlatNavigation navigation new) = flatten navigation) ∧
  (∀ title icon url this,
     getFlatNavigation [NavItem (VStr "collapse") title icon url None] this = this ∧
     getFlatNavigation [NavItem (VStr "group") title icon url None] this = this) ∧
  (∀ title url children this,
     returned (getFlatNavigation [NavItem (VStr "item") title VUndefined url children] this)
     = returned this ++
       [ VObj (list_to_map
           [ ("title", title); ("type", VStr "item");
             ("icon", VBool false); ("url", url) ]) ]).
Proof.
  split; [reflexivity|]. split; [|split].
  - intros navigation. by rewrite getFlatNavigation_returned.
  - done.
  - done.
Qed.

End navigation_facts.

(** ** Sidebar *)

Section sidebar_facts.
Import Config Sidebar.

Lemma on_true field : on field = true → field = Some true.
Proof. by destruct field as [[|]|]. Qed.

(** *** The [folded] setter *)

Lemma folded_set_closed value this : opened this = false → folded_set value this = this.
Proof. unfold folded_set. by intros ->. Qed.

Lemma folded_set_opened value this :
  opened this = true →
  folded (folded_set value this) = Some value ∧
  opened (folded_set value this) = true ∧
  isLockedOpen (folded_set value this) = isLockedOpen this ∧
  _backdrop (folded_set value this) = _backdrop this ∧
  pendingDone (folded_set value this) = pendingDone this.
Proof.
  unfold folded_set. intros Ho. rewrite Ho. cbn [negb].
  destruct (align (with__folded this (Some value)));
    [destruct (nextElementSibling _) | destruct (previousElementSibling _)];
    try destruct value; cbn; by rewrite Ho.
Qed.

(** With a sibling on the side the sidebar is aligned to, the setter
    makes exactly one renderer call. *)
Lemma folded_set_calls value this sibling rule :
  opened this = true →
  margin_target this = (Some sibling, rule) →
  calls (folded_set value this)
  = calls this ++ [if value then SetStyle sibling rule styleValue
                   else RemoveStyle sibling rule] ∧
  style (dom (folded_set value this)) !! (sibling, rule)
  = if value then Some styleValue else None.
Proof.
  unfold folded_set, margin_target. intros -> Ht. cbn [negb].
  change (align (with__folded this (Some value))) with (align this).
  change (nextElementSibling (with__folded this (Some value)))
    with (nextElementSibling this).
  change (previousElementSibling (with__folded this (Some value)))
    with (previousElementSibling this).
  destruct (align this); injection Ht as -> <-; destruct value; cbn;
    by rewrite ?lookup_insert_eq, ?lookup_delete_eq.
Qed.

Lemma closed_ignores_folded this :
  opened this = false →
  (∀ value, folded_set value this = this) ∧ fold this = this ∧ Sidebar.unfold this = this.
Proof.
  intros Hc.
  assert (Hset : ∀ value, folded_set value this = this)
    by (intros; by apply folded_set_closed).
  split; [done|]. unfold fold, Sidebar.unfold.
  by destruct (on (folded this)); rewrite ?Hset.
Qed.

(** C6. While the sidebar is closed a write to [folded] changes nothing,
    neither the flag nor the document; so [fold()] on a closed, unfolded
    sidebar leaves it unfolded. *)
Theorem fold_while_closed_is_noop this :
  opened this = false →
  (∀ value, folded_set value this = this) ∧
  fold this = this ∧
  unfold this = this ∧
  (folded this = Some false → folded (fold this) = Some false) ∧
  dom (fold this) = dom this.
Proof.
  intros Hc. destruct (closed_ignores_folded this Hc) as (Hset & Hf & Hu).
  by rewrite Hf.
Qed.

(** A sidebar that was opened, folded, unfolded and closed again. *)
Lemma fold_while_closed_is_noop_witness :
  let this := run [Open; Fold; Unfold; Close] (constructor 0 page) in
  opened this = false ∧ folded this = Some false ∧ folded (fold this) = Some false.
Proof.
  split; [reflexivity|]. split; [reflexivity|].
  apply (fold_while_closed_is_noop (run [Open; Fold; Unfold; Close] (constructor 0 page)));
    reflexivity.
Defined.

(** C5. A locked-open sidebar ignores [open()] and [close()]; so does an
    opened one [open()] and a closed one [close()]. *)
Theorem open_close_suppressed this :
  (isLockedOpen this = Some true ∨ opened this = true → open this = this) ∧
  (isLockedOpen this = Some true ∨ opened this = false → close this = this).
Proof.
  unfold open, close. split; intros [-> | ->]; cbn;
    by rewrite ?orb_true_r.
Qed.

(** A new sidebar locked open. *)
Lemma open_close_suppressed_witness :
  let this := with_isLockedOpen (constructor 0 page) (Some true) in
  isLockedOpen this = Some true ∧ open this = this ∧ close this = this.
Proof.
  split; [reflexivity|].
  destruct (open_close_suppressed (with_isLockedOpen (constructor 0 page) (Some true)))
    as [Ho Hc].
  split; [apply Ho | apply Hc]; left; reflexivity.
Defined.

(** *** Closing a folded sidebar *)

Lemma hideBackdrop_fields this :
  opened (hideBackdrop this) = opened this ∧
  folded (hideBackdrop this) = folded this ∧
  isLockedOpen (hideBackdrop this) = isLockedOpen this ∧
  dom (hideBackdrop this) = dom this.
Proof. unfold hideBackdrop. by destruct (_backdrop this). Qed.

Lemma open_closed this :
  opened this = false → on (isLockedOpen this) = false →
  open this = with_opened (showBackdrop this) true.
Proof. unfold open. by intros -> ->. Qed.

Lemma close_opened this :
  opened this = true → on (isLockedOpen this) = false →
  close this = with_opened (hideBackdrop this) false.
Proof. unfold close. by intros -> ->. Qed.

Lemma fold_opened this :
  opened this = true →
  folded (fold this) = Some true ∧ opened (fold this) = true ∧
  isLockedOpen (fold this) = isLockedOpen this.
Proof.
  intros Ho. unfold fold. destruct (on (folded this)) eqn:E.
  - by apply on_true in E.
  - by destruct (folded_set_opened true this Ho) as (? & ? & ? & _).
Qed.

(** C9. [close()] does not unfold.  From any closed, unlocked sidebar the
    calls [open(); fold(); close()] lead to a sidebar that is closed and
    folded, although before the [close()] every folded sidebar was an
    opened one; there every write to [folded], [unfold()] included, is
    ignored, and the margin that [fold()] gave the sibling stays. *)
Theorem close_leaves_sidebar_folded this :
  opened this = false → on (isLockedOpen this) = false →
  let before := run [Open; Fold] this in
  let s := run [Open; Fold; Close] this in
  folded_only_if_opened before ∧
  opened s = false ∧ folded s = Some true ∧ ¬ folded_only_if_opened s ∧
  (∀ value, folded_set value s = s) ∧ Sidebar.unfold s = s ∧
  (∀ sibling rule,
     on (folded this) = false →
     margin_target (open this) = (Some sibling, rule) →
     style (dom (Sidebar.unfold s)) !! (sibling, rule) = Some styleValue).
Proof.
  intros Hc Hl before s.
  change before with (fold (open this)). change s with (close (fold (open this))).
  clear before s. rewrite (open_closed this Hc Hl).
  set (o := with_opened (showBackdrop this) true).
  assert (Ho : opened o = true) by done.
  assert (Hlo : on (isLockedOpen o) = false) by done.
  destruct (fold_opened o Ho) as (Hf & Hfo & Hfl).
  assert (Hfl' : on (isLockedOpen (fold o)) = false) by by rewrite Hfl.
  rewrite (close_opened _ Hfo Hfl').
  destruct (hideBackdrop_fields (fold o)) as (_ & Hhf & _ & Hhd).
  set (s := with_opened (hideBackdrop (fold o)) false).
  assert (Hs : opened s = false) by done.
  assert (Hsf : folded s = Some true) by (unfold s; cbn; by rewrite <- Hf, <- Hhf).
  destruct (closed_ignores_folded s Hs) as (Hset & _ & Hu).
  split; [by intros _|]. split; [done|]. split; [done|].
  split; [unfold folded_only_if_opened; rewrite Hsf, Hs; cbn; by intros H; specialize (H eq_refl)|].
  split; [done|]. split; [done|].
  intros sibling rule Hnf Ht. rewrite Hu.
  change (dom s) with (dom (hideBackdrop (fold o))). rewrite Hhd.
  unfold fold. change (folded o) with (folded this). rewrite Hnf.
  by destruct (folded_set_calls true o sibling rule Ho Ht) as [_ ->].
Qed.

(** On the sample page the content element keeps its margin. *)
Lemma close_leaves_sidebar_folded_witness :
  let s := run [Open; Fold; Close] (constructor 0 page) in
  opened s = false ∧ folded s = Some true ∧
  style (dom (Sidebar.unfold s)) !! (1, "marginLeft") = Some "64px".
Proof.
  destruct (close_leaves_sidebar_folded (constructor 0 page) eq_refl eq_refl)
    as (_ & Ho & Hf & _ & _ & _ & Hm).
  split; [exact Ho|]. split; [exact Hf|].
  apply Hm; reflexivity.
Defined.

(** *** Teardown *)

(** Teardown of a sidebar that is folded and opened: the margin is taken
    back by one renderer call, made before the registry is told. *)
Lemma ngOnDestroy_unfolds_opened this sibling rule :
  opened this = true → on (folded this) = true →
  margin_target this = (Some sibling, rule) →
  let this' := fst (ngOnDestroy this) in
  folded this' = Some false ∧
  style (dom this') !! (sibling, rule) = None ∧
  ∃ rest, calls this'
          = calls this ++ RemoveStyle sibling rule :: Unregister (name this) :: rest ∧
          (rest = [] ∨ rest = [Unsubscribe]).
Proof.
  intros Ho Hf Ht. unfold ngOnDestroy. rewrite Hf. unfold Sidebar.unfold.
  rewrite Hf. cbn [negb].
  destruct (folded_set_opened false this Ho) as (Hfold & _).
  destruct (folded_set_calls false this sibling rule Ho Ht) as [Hcalls Hstyle].
  set (u := folded_set false this) in *.
  change (_onMediaChangeSubscription (called u (Unregister (name u))))
    with (_onMediaChangeSubscription u).
  assert (Hn : name u = name this). {
    unfold u, folded_set. rewrite Ho. cbn [negb].
    destruct (align (with__folded this (Some false)));
      [destruct (nextElementSibling _) | destruct (previousElementSibling _)]; done. }
  destruct (_onMediaChangeSubscription u); cbn [fst];
    (split; [exact Hfold|]; split; [exact Hstyle|]); cbn; rewrite Hcalls, Hn.
  - exists [Unsubscribe]. rewrite <- !app_assoc. by split; [|right].
  - exists []. rewrite <- !app_assoc. by split; [|left].
Qed.

(** C4, the failing case. A sidebar mounted with a lock-open breakpoint is
    opened, folded and closed, then torn down: [unfold()] is ignored
    because the sidebar is closed, so the sidebar stays folded, the content
    element keeps its [64px] margin and the only calls made are the
    unregistration and the unsubscription. *)
Lemma ngOnDestroy_closed_keeps_margin :
  let m := mounted 0 page (Some "navbar") left (Some "gt-md") false default_store in
  let s := run [Open; Fold; Close] (fst m) in
  let s' := fst (ngOnDestroy s) in
  snd m = None ∧
  opened s = false ∧ folded s = Some true ∧
  style (dom s) !! (1, "marginLeft") = Some "64px" ∧
  snd (ngOnDestroy s) = None ∧
  folded s' = Some true ∧
  style (dom s') !! (1, "marginLeft") = Some "64px" ∧
  calls s' = calls s ++ [Unregister (Some "navbar"); Unsubscribe].
Proof. cbv zeta. repeat split; vm_compute; reflexivity. Qed.

(** *** What [ngOnInit] wires up stays as it is *)

Lemma same_wiring_refl this : same_wiring this this.
Proof. done. Qed.

Lemma same_wiring_trans a b c : same_wiring a b → same_wiring b c → same_wiring a c.
Proof. intros [H1 H2] [H3 H4]. split; congruence. Qed.

Lemma folded_set_wiring value this : same_wiring (folded_set value this) this.
Proof. by_cases. Qed.

Lemma unfold_wiring this : same_wiring (Sidebar.unfold this) this.
Proof. by_cases. Qed.

Lemma onMediaChange_wiring isActive cfg this :
  same_wiring (fst (onMediaChange isActive cfg this)) this.
Proof. by_cases. Qed.

Lemma handle_wiring this e : same_wiring (handle this e) this.
Proof.
  destruct e; cbn [handle]; by_cases.
Qed.

Lemma run_wiring events this : same_wiring (run events this) this.
Proof.
  unfold run. revert this. induction events as [|e events IH]; intros this; cbn.
  - apply same_wiring_refl.
  - eapply same_wiring_trans; [apply IH | apply handle_wiring].
Qed.

(** The subscription exists after mounting only if a breakpoint was
    given, and then it does unless the first run of the handler threw. *)
Lemma mounted_wiring el d n a l isActive cfg :
  let m := mounted el d n a l isActive cfg in
  lockedOpen (fst m) = l ∧
  (is_Some (_onMediaChangeSubscription (fst m)) → given l = true) ∧
  (given l = false → _onMediaChangeSubscription (fst m) = None) ∧
  (given l = true → snd m = None → is_Some (_onMediaChangeSubscription (fst m))).
Proof.
  cbv zeta. unfold mounted, ngOnInit, _setupLockedOpen.
  set (c := _setupAlignment _).
  assert (Hc : lockedOpen c = l ∧ _onMediaChangeSubscription c = None).
  { unfold c, _setupAlignment. by destruct a. }
  destruct Hc as [Hl Hs]. rewrite Hl.
  destruct (given l) eqn:G; cbn [negb fst snd].
  - set (c' := called _ Subscribe).
    pose proof (onMediaChange_wiring isActive cfg c') as [Hl' Hs'].
    destruct (onMediaChange isActive cfg c') as [t [e|]]; cbn [fst snd] in *.
    + rewrite Hl', Hs'. unfold c'. cbn. rewrite Hl, Hs.
      repeat split; done.
    + cbn. rewrite Hl'. unfold c'. cbn. rewrite Hl. repeat split; done.
  - rewrite Hs. repeat split; done.
Qed.

Lemma ngOnDestroy_outcome this :
  snd (ngOnDestroy this)
  = match _onMediaChangeSubscription this with
    | None => Some TypeError
    | Some _ => None
    end.
Proof.
  unfold ngOnDestroy.
  set (u := if on (folded this) then Sidebar.unfold this else this).
  assert (Hu : _onMediaChangeSubscription u = _onMediaChangeSubscription this).
  { unfold u. destruct (on (folded this)); [apply unfold_wiring|done]. }
  change (_onMediaChangeSubscription (called u (Unregister (name u))))
    with (_onMediaChangeSubscription u).
  rewrite Hu. by destruct (_onMediaChangeSubscription this).
Qed.

(** C10. [ngOnDestroy] always reaches the unsubscription, but the
    subscription is created only when [lockedOpen] was given at
    initialisation.  Whatever happens to a mounted sidebar in between,
    teardown ends without an exception only if [lockedOpen] was given; a
    sidebar mounted without it throws a [TypeError] there; with it (and
    initialisation having succeeded) teardown succeeds. *)
Theorem ngOnDestroy_requires_lockedOpen el d n a l isActive cfg events :
  let m := mounted el d n a l isActive cfg in
  let s := run events (fst m) in
  (is_Some (_onMediaChangeSubscription s) → given l = true) ∧
  (snd (ngOnDestroy s) = None → given l = true) ∧
  (given l = false → snd (ngOnDestroy s) = Some TypeError) ∧
  (given l = true → snd m = None → snd (ngOnDestroy s) = None).
Proof.
  intros m s.
  destruct (mounted_wiring el d n a l isActive cfg) as (_ & Hsome & Hnone & Hgiven).
  fold m in Hsome, Hnone, Hgiven.
  destruct (run_wiring events (fst m)) as [_ Hs]. fold s in Hs.
  rewrite ngOnDestroy_outcome, Hs.
  split; [exact Hsome|]. split; [|split].
  - intros H. apply Hsome. by destruct (_onMediaChangeSubscription (fst m)).
  - intros G. by rewrite (Hnone G).
  - intros G E. by destruct (Hgiven G E) as [? ->].
Qed.

(** The same sidebar mounted without and with a breakpoint. *)
Lemma ngOnDestroy_requires_lockedOpen_witness :
  let without := run [Open; Close] (fst (mounted 0 page (Some "navbar") left None false default_store)) in
  let m := mounted 0 page (Some "navbar") left (Some "gt-md") true default_store in
  snd (ngOnDestroy without) = Some TypeError ∧
  snd m = None ∧ snd (ngOnDestroy (run [MediaChange false default_store] (fst m))) = None.
Proof.
  split; [|split; [reflexivity|]].
  - by apply (ngOnDestroy_requires_lockedOpen
                0 page (Some "navbar") left None false default_store [Open; Close]).
  - by apply (ngOnDestroy_requires_lockedOpen
                0 page (Some "navbar") left (Some "gt-md") true default_store
                [MediaChange false default_store]).
Defined.

(** *** Responsive lock-open *)

Lemma fold_keeps_backdrop this :
  _backdrop (fold this) = _backdrop this ∧
  _player (fold this) = _player this ∧
  pendingDone (fold this) = pendingDone this.
Proof. by_cases. Qed.

(** C3. The media-change handler does nothing when the answer of the
    media query is the recorded one.  When the answer is "active" and the
    recorded one is not, it locks the sidebar open and opened, calls
    [fold()] exactly when the store's [layout.navigationFolded] is truthy
    at that moment (so the sidebar is then folded), starts the fade-out of
    a backdrop if there is one, and records the new answer. *)
Theorem media_change_locks_open this cfg :
  (∀ isActive, _wasActive this = Some isActive →
     onMediaChange isActive cfg this = (this, None)) ∧
  (∀ setting, _wasActive this ≠ Some true → navigationFolded cfg = Normal setting →
     let activated := with_opened (with_isLockedOpen this (Some true)) true in
     let this' := fst (onMediaChange true cfg this) in
     snd (onMediaChange true cfg this) = None ∧
     this' = with__wasActive
               (hideBackdrop (if truthy setting then fold activated else activated))
               (Some true) ∧
     isLockedOpen this' = Some true ∧ opened this' = true ∧
     _wasActive this' = Some true ∧
     (truthy setting = true → folded this' = Some true) ∧
     (truthy setting = false → folded this' = folded this ∧ dom this' = dom this) ∧
     match _backdrop this with
     | Some backdrop =>
         _player this' = Some (backdrop, FadeOut) ∧
         pendingDone this' = S (pendingDone this) ∧
         last (calls this') = Some (Play backdrop FadeOut)
     | None => _player this' = _player this ∧ pendingDone this' = pendingDone this
     end).
Proof.
  split.
  - intros isActive H. unfold onMediaChange. by rewrite bool_decide_eq_true_2.
  - intros setting Hw Hnav activated this'.
    assert (E : onMediaChange true cfg this
                = (with__wasActive
                     (hideBackdrop (if truthy setting then fold activated else activated))
                     (Some true), None)).
    { unfold onMediaChange. rewrite bool_decide_eq_false_2 by done. by rewrite Hnav. }
    unfold this'. rewrite E. cbn [fst snd]. clear this' E.
    set (x := if truthy setting then fold activated else activated).
    assert (Ha : opened activated = true) by done.
    destruct (fold_opened activated Ha) as (Hf & Hfo & Hfl).
    destruct (fold_keeps_backdrop activated) as (Hb & Hp & Hn).
    assert (Hx : opened x = true ∧ isLockedOpen x = Some true ∧
                 _backdrop x = _backdrop this ∧ _player x = _player this ∧
                 pendingDone x = pendingDone this).
    { unfold x. destruct (truthy setting); [|done].
      by rewrite Hfo, Hfl, Hb, Hp, Hn. }
    destruct Hx as (Hxo & Hxl & Hxb & Hxp & Hxn).
    destruct (hideBackdrop_fields x) as (Hho & Hhf & Hhl & Hhd).
    split; [done|]. split; [done|].
    split; [cbn; by rewrite Hhl|]. split; [cbn; by rewrite Hho|]. split; [done|].
    split; [|split].
    + intros T. change (folded (hideBackdrop x) = Some true).
      rewrite Hhf. unfold x. by rewrite T.
    + intros T. change (folded (hideBackdrop x) = folded this ∧ dom (hideBackdrop x) = dom this).
      rewrite Hhf, Hhd. unfold x. by rewrite T.
    + change (match _backdrop this with
              | Some backdrop =>
                  _player (hideBackdrop x) = Some (backdrop, FadeOut) ∧
                  pendingDone (hideBackdrop x) = S (pendingDone this) ∧
                  last (calls (hideBackdrop x)) = Some (Play backdrop FadeOut)
              | None => _player (hideBackdrop x) = _player this ∧
                        pendingDone (hideBackdrop x) = pendingDone this
              end).
      unfold hideBackdrop. rewrite Hxb.
      destruct (_backdrop this) as [backdrop|]; cbn.
      * rewrite Hxn. by rewrite last_snoc.
      * by rewrite Hxp, Hxn.
Qed.

(** A sidebar opened by hand, with its backdrop up, when the breakpoint
    becomes active under a store that asks for a folded navigation; a
    second notification with the same answer changes nothing. *)
Lemma media_change_locks_open_witness :
  let m := mounted 0 page (Some "navbar") left (Some "gt-md") false folded_store in
  let this := open (fst m) in
  let this' := fst (onMediaChange true folded_store this) in
  _wasActive this ≠ Some true ∧
  navigationFolded folded_store = Normal (VBool true) ∧
  _backdrop this = Some 2 ∧
  isLockedOpen this' = Some true ∧ opened this' = true ∧ folded this' = Some true ∧
  onMediaChange true folded_store this' = (this', None).
Proof.
  cbv zeta.
  set (this := open (fst (mounted 0 page (Some "navbar") left (Some "gt-md") false folded_store))).
  assert (Hw : _wasActive this ≠ Some true) by (vm_compute; discriminate).
  assert (Hn : navigationFolded folded_store = Normal (VBool true)) by (vm_compute; reflexivity).
  destruct (media_change_locks_open this folded_store) as [_ Hact].
  destruct (Hact (VBool true) Hw Hn) as (_ & _ & Hl & Ho & Hwas & Hf & _).
  split; [exact Hw|]. split; [exact Hn|]. split; [vm_compute; reflexivity|].
  split; [exact Hl|]. split; [exact Ho|]. split; [by apply Hf|].
  apply (media_change_locks_open _ folded_store), Hwas.
Defined.

End sidebar_facts.

(** ** More on the configuration store *)

Section config_more.
Import Config.

Lemma get_own_props arg k v : get arg k = Normal v → v = prop (own_props arg) k.
Proof. destruct arg; cbn; by intros [= <-]. Qed.

Lemma lookup_spread2 (a b : obj) k :
  spread2 a b !! k = match b !! k with Some v => Some v | None => a !! k end.
Proof.
  unfold spread2. destruct (b !! k) as [v|] eqn:E.
  - by apply lookup_union_Some_l.
  - by apply lookup_union_r.
Qed.

(** X1. [setConfig] throws exactly when it is given [undefined] or [null]. *)
Theorem setConfig_throws_iff_nullish arg this :
  (∃ e, setConfig arg this = Throw e) ↔ arg = VUndefined ∨ arg = VNull.
Proof.
  split.
  - intros [e H]. destruct arg; try (by left); try (by right); discriminate H.
  - intros [-> | ->]; by eexists.
Qed.

Lemma setConfig_throws_iff_nullish_witness :
  ∃ e, setConfig VNull default_store = Throw e.
Proof. apply setConfig_throws_iff_nullish. by right. Defined.

(** X2. The merge, key by key: in [layout] and in [colorClasses] an entry of
    the argument's subsection wins and every other entry is the previous
    one; at top level, for every other key, the argument's value wins and
    otherwise the previous value stays. *)
Theorem setConfig_merges_key_by_key arg this this' :
  setConfig arg this = Normal this' →
  (∀ sec, sec = "layout" ∨ sec = "colorClasses" →
     ∃ m, config this' !! sec = Some (VObj m) ∧
       ∀ k, m !! k = match own_props (prop (own_props arg) sec) !! k with
                     | Some v => Some v
                     | None => own_props (prop (config this) sec) !! k
                     end) ∧
  (∀ k, k ≠ "layout" → k ≠ "colorClasses" →
     config this' !! k = match own_props arg !! k with
                         | Some v => Some v
                         | None => config this !! k
                         end).
Proof.
  intros (al & ac & Hal & Hac & _ & Hl & Hc & Hk)%setConfig_Normal.
  apply get_own_props in Hal as ->. apply get_own_props in Hac as ->.
  split.
  - intros sec [-> | ->]; eexists; (split; [eassumption|]); intros k;
      apply lookup_spread2.
  - intros k H1 H2. rewrite Hk by done. apply lookup_spread2.
Qed.

Lemma setConfig_merges_key_by_key_witness :
  ∃ this',
    setConfig (VObj {[ "layout" := VObj {[ "mode" := VStr "boxed" ]} ]}) default_store
      = Normal this' ∧
    ∃ m, config this' !! "layout" = Some (VObj m) ∧
         m !! "mode" = Some (VStr "boxed") ∧ m !! "footer" = Some (VStr "below").
Proof.
  eexists. split; [reflexivity|].
  destruct (setConfig_merges_key_by_key
              (VObj {[ "layout" := VObj {[ "mode" := VStr "boxed" ]} ]})
              default_store _ eq_refl) as [Hsec _].
  destruct (Hsec "layout" (or_introl eq_refl)) as (m & Hm & Hk).
  exists m. split; [exact Hm|]. split; rewrite Hk; reflexivity.
Defined.

Lemma spread2_twice (a b : obj) : spread2 (spread2 a b) b = spread2 a b.
Proof. unfold spread2. by rewrite (assoc_L (∪)), (idemp_L (∪)). Qed.

Lemma setConfig_again arg this this1 :
  setConfig arg this = Normal this1 →
  ∃ this2, setConfig arg this1 = Normal this2 ∧ config this2 = config this1 ∧
           onConfigChanged this2 = onConfigChanged this1 ++ [config this1].
Proof.
  intros H1.
  assert (∃ this2, setConfig arg this1 = Normal this2) as [this2 H2].
  { destruct arg; try discriminate H1; by eexists. }
  assert (Hcfg : config this2 = config this1).
  { destruct (setConfig_Normal _ _ _ H1) as (al & ac & Hal & Hac & _ & Hl & Hc & Hk).
    destruct (setConfig_Normal _ _ _ H2) as (al' & ac' & Hal' & Hac' & _ & Hl' & Hc' & Hk').
    rewrite Hal in Hal'. injection Hal' as <-.
    rewrite Hac in Hac'. injection Hac' as <-.
    rewrite (prop_lookup _ _ _ Hl) in Hl'. rewrite (prop_lookup _ _ _ Hc) in Hc'.
    cbn [own_props] in Hl', Hc'. rewrite spread2_twice in Hl', Hc'.
    apply map_eq. intros k.
    destruct (decide (k = "layout")) as [->|N1]; [by rewrite Hl, Hl'|].
    destruct (decide (k = "colorClasses")) as [->|N2]; [by rewrite Hc, Hc'|].
    rewrite Hk', !lookup_spread2 by done.
    destruct (own_props arg !! k) eqn:E; [|done].
    by rewrite Hk, lookup_spread2, E. }
  exists this2. split; [done|]. split; [done|].
  revert H2. unfold setConfig.
  destruct (get arg "layout"); [|discriminate].
  destruct (get arg "colorClasses"); [|discriminate].
  intros [= <-]. cbn in *. by rewrite Hcfg.
Qed.

(** X3. Giving [setConfig] the same argument a second time changes nothing in
    the configuration (it is only announced once more). *)
Theorem setConfig_twice_same_config arg this this1 :
  setConfig arg this = Normal this1 →
  ∃ this2, setConfig arg this1 = Normal this2 ∧ config this2 = config this1 ∧
           onConfigChanged this2 = onConfigChanged this1 ++ [config this1].
Proof. apply setConfig_again. Qed.

Lemma setConfig_twice_same_config_witness :
  let arg := VObj {[ "customScrollbars" := VBool false ]} in
  let this1 := step default_store (SetConfig arg) in
  setConfig arg default_store = Normal this1 ∧
  ∃ this2, setConfig arg this1 = Normal this2 ∧ config this2 = config this1.
Proof.
  cbv zeta.
  assert (H1 : setConfig (VObj {[ "customScrollbars" := VBool false ]}) default_store
               = Normal (step default_store
                           (SetConfig (VObj {[ "customScrollbars" := VBool false ]}))))
    by (vm_compute; reflexivity).
  split; [exact H1|].
  destruct (setConfig_twice_same_config _ _ _ H1) as (this2 & H2 & Hc & _).
  exists this2. split; [exact H2 | exact Hc].
Defined.

Lemma setConfig_frame k arg this this' :
  k ≠ "layout" → k ≠ "colorClasses" → own_props arg !! k = None →
  setConfig arg this = Normal this' → config this' !! k = config this !! k.
Proof.
  intros N1 N2 Hn (_ & _ & _ & _ & _ & _ & _ & Hk)%setConfig_Normal.
  by rewrite Hk, lookup_spread2, Hn.
Qed.

Lemma perform_frame k a this this' :
  k ≠ "layout" → k ≠ "colorClasses" → ¬ writes_key k a →
  perform a this = Normal this' → config this' !! k = config this !! k.
Proof.
  intros N1 N2 Hw. destruct a as [arg|[|]]; cbn [perform onRouterEvent].
  - apply setConfig_frame; [done|done|]. cbn [writes_key] in Hw.
    destruct (own_props arg !! k); [|done]. by destruct Hw.
  - destruct (get (defaultConfig this) "layout") as [dl|]; [|discriminate].
    apply setConfig_frame; [done|done|]. cbn [own_props].
    by rewrite lookup_singleton_ne.
  - by intros [= <-].
Qed.

(** X4. A top-level key other than [layout] and [colorClasses] keeps its
    value through every run in which no [setConfig] argument has that key;
    navigation starts never touch it. *)
Theorem untouched_top_level_key_is_kept k acts this :
  k ≠ "layout" → k ≠ "colorClasses" →
  Forall (λ a, ¬ writes_key k a) acts →
  config (run acts this) !! k = config this !! k.
Proof.
  intros N1 N2 Hall. unfold run. revert this.
  induction Hall as [|a acts Ha _ IH]; intros this; cbn; [done|].
  rewrite IH. unfold step.
  destruct (perform a this) as [this'|] eqn:E; [|done].
  by eapply perform_frame.
Qed.

Lemma untouched_top_level_key_is_kept_witness :
  config (run (boxed_with_colour ++ [Route NavigationStart]) default_store)
    !! "routerAnimation" = Some (VStr "fadeIn").
Proof.
  rewrite (untouched_top_level_key_is_kept "routerAnimation"); [reflexivity|done|done|].
  repeat constructor; cbn; done.
Defined.

(** X5. On a mobile platform the constructor stores [customScrollbars:
    false] in the default and in the working configuration, whatever
    object was injected; it throws when the injected value is a truthy
    primitive, which cannot take the property. *)
Theorem constructor_on_mobile platform custom :
  ANDROID platform || IOS platform = true →
  match constructor platform custom with
  | Normal this =>
      config this !! "customScrollbars" = Some (VBool false) ∧
      get (defaultConfig this) "customScrollbars" = Normal (VBool false)
  | Throw _ => truthy custom = true ∧ ∀ m, custom ≠ VObj m
  end.
Proof.
  intros Hm. unfold constructor. rewrite Hm.
  destruct (truthy custom) eqn:T; [destruct custom|]; try discriminate T;
    cbn [set mbind completion_bind own_props get config defaultConfig DEFAULT_CONFIG];
    unfold prop; rewrite ?lookup_insert_eq; done.
Qed.

Lemma constructor_on_mobile_witness :
  ANDROID mobile || IOS mobile = true ∧
  match constructor mobile layout_only with
  | Normal this =>
      config this !! "customScrollbars" = Some (VBool false) ∧
      get (defaultConfig this) "customScrollbars" = Normal (VBool false)
  | Throw _ => truthy layout_only = true ∧ ∀ m, layout_only ≠ VObj m
  end.
Proof. split; [reflexivity|]. exact (constructor_on_mobile mobile layout_only eq_refl). Defined.

(** *** What the subject has been given *)

Lemma setConfig_emits arg this this' :
  setConfig arg this = Normal this' →
  onConfigChanged this' = onConfigChanged this ++ [config this'] ∧
  has_sections (config this').
Proof.
  intros H. destruct (setConfig_Normal _ _ _ H) as (? & ? & _ & _ & _ & Hl & Hc & _).
  split; [|split; by eexists].
  revert H. unfold setConfig.
  destruct (get arg "layout"); [|discriminate].
  destruct (get arg "colorClasses"); [|discriminate]. by intros [= <-].
Qed.

(** A successful action is a router event that is ignored or comes down
    to one successful [setConfig]. *)
Lemma perform_cases a this this' :
  perform a this = Normal this' →
  this' = this ∨ ∃ arg, setConfig arg this = Normal this'.
Proof.
  destruct a as [arg|[|]].
  - intros H. right. by exists arg.
  - change (perform (Route NavigationStart) this)
      with (onRouterEvent NavigationStart this).
    destruct (get (defaultConfig this) "layout") as [dl|e] eqn:G.
    + rewrite (onRouterEvent_NavigationStart _ _ G). intros H. right. by eexists.
    + unfold onRouterEvent. rewrite G. discriminate.
  - intros [= <-]. by left.
Qed.

Lemma perform_emits a this this' :
  perform a this = Normal this' →
  this' = this ∨
  (onConfigChanged this' = onConfigChanged this ++ [config this'] ∧
   has_sections (config this')).
Proof.
  intros [-> | [arg H]]%perform_cases; [by left|right].
  by apply (setConfig_emits arg).
Qed.

(** A run appends to the subject the configuration each [setConfig] call
    and navigation start leaves, each with both subsections, the last of
    them the current one. *)
Lemma run_emits acts this :
  ∃ news,
    onConfigChanged (run acts this) = onConfigChanged this ++ news ∧
    Forall has_sections news ∧
    last (config this :: news) = Some (config (run acts this)).
Proof.
  unfold run. revert this. induction acts as [|a acts IH]; intros this; cbn [foldl].
  - exists []. by rewrite app_nil_r.
  - destruct (IH (step this a)) as (news & Hn & Hs & Hlast).
    unfold step in *. destruct (perform a this) as [this'|] eqn:E; [|by exists news].
    destruct (perform_emits _ _ _ E) as [-> | [He Hsec]]; [by exists news|].
    exists (config this' :: news). rewrite Hn, He, <- app_assoc.
    split; [done|]. split; [by constructor|].
    by rewrite last_cons_cons.
Qed.

(** X6. The subject always holds the current configuration: what a new
    subscriber is replayed is [config], and nothing given to the subject
    earlier is ever taken back. *)
Theorem onConfigChanged_holds_config platform custom this0 acts :
  constructor platform custom = Normal this0 →
  last (onConfigChanged (run acts this0)) = Some (config (run acts this0)) ∧
  onConfigChanged this0 `prefix_of` onConfigChanged (run acts this0).
Proof.
  intros H0.
  assert (H1 : onConfigChanged this0 = [config this0]).
  { revert H0. unfold constructor.
    destruct (if ANDROID platform || IOS platform then _ else _); [|discriminate].
    by intros [= <-]. }
  destruct (run_emits acts this0) as (news & Hn & _ & Hlast).
  rewrite Hn. split; [|by exists news].
  by rewrite H1.
Qed.

Lemma onConfigChanged_holds_config_witness :
  last (onConfigChanged (run red_toolbar default_store))
  = Some (config (run red_toolbar default_store)).
Proof. by apply (onConfigChanged_holds_config desktop VUndefined). Defined.

(** *** Navigation start, again *)

(** X7. When the current layout has no key beyond those of the stored
    default's layout, a navigation start puts back exactly the default's
    layout. *)
Theorem navigation_start_restores_layout this dl l :
  get (defaultConfig this) "layout" = Normal (VObj dl) →
  config this !! "layout" = Some (VObj l) →
  keeps l dl →
  ∃ this', onRouterEvent NavigationStart this = Normal this' ∧
           config this' !! "layout" = Some (VObj dl).
Proof.
  intros Hd Hl Hk. rewrite (onRouterEvent_NavigationStart _ _ Hd).
  destruct (setConfig_object {["layout" := VObj dl]} this) as [this' E].
  exists this'. split; [done|].
  destruct (setConfig_Normal _ _ _ E) as (al & ac & Hal & _ & _ & Hl' & _).
  apply get_own_props in Hal. cbn [own_props] in Hal.
  unfold prop in Hal. rewrite lookup_singleton_eq in Hal.
  cbn [default from_option id] in Hal.
  subst al. rewrite Hl', (prop_lookup _ _ _ Hl). cbn [own_props].
  do 2 f_equal. apply map_eq. intros k. rewrite lookup_spread2.
  destruct (dl !! k) as [v|] eqn:Ek; [done|].
  destruct (l !! k) as [w|] eqn:El; [|done].
  destruct (Hk k) as [? Hx]; [by eexists|]. by rewrite Ek in Hx.
Qed.

Lemma navigation_start_restores_layout_witness :
  ∃ this', onRouterEvent NavigationStart (run boxed_with_colour default_store)
           = Normal this' ∧
           config this' !! "layout" = Some (VObj DEFAULT_layout).
Proof.
  apply (navigation_start_restores_layout _ DEFAULT_layout
           (spread2 DEFAULT_layout {[ "mode" := VStr "boxed" ]})).
  - reflexivity.
  - vm_compute. reflexivity.
  - intros k [v Hv]. rewrite lookup_spread2 in Hv.
    destruct ({[ "mode" := VStr "boxed" ]} !! k) as [w|] eqn:E; [|by eexists].
    apply lookup_singleton_Some in E as [<- _]. by eexists.
Defined.

(** X8. A second navigation start right after the first changes nothing in
    the configuration. *)
Theorem navigation_start_twice_same_config this this1 :
  onRouterEvent NavigationStart this = Normal this1 →
  ∃ this2, onRouterEvent NavigationStart this1 = Normal this2 ∧
           config this2 = config this1.
Proof.
  destruct (get (defaultConfig this) "layout") as [dl|e] eqn:G.
  - rewrite (onRouterEvent_NavigationStart _ _ G). intros H1.
    destruct (setConfig_again _ _ _ H1) as (this2 & H2 & Hc & _).
    exists this2. split; [|done].
    rewrite (onRouterEvent_NavigationStart _ dl); [done|].
    by rewrite (setConfig_defaultConfig _ _ _ H1).
  - unfold onRouterEvent. rewrite G. discriminate.
Qed.

Lemma navigation_start_twice_same_config_witness :
  let this1 := step (run boxed_with_extra_key default_store) (Route NavigationStart) in
  onRouterEvent NavigationStart (run boxed_with_extra_key default_store) = Normal this1 ∧
  ∃ this2, onRouterEvent NavigationStart this1 = Normal this2 ∧
           config this2 = config this1.
Proof.
  cbv zeta.
  assert (H1 : onRouterEvent NavigationStart (run boxed_with_extra_key default_store)
               = Normal (step (run boxed_with_extra_key default_store)
                           (Route NavigationStart)))
    by (vm_compute; reflexivity).
  split; [exact H1|]. exact (navigation_start_twice_same_config _ _ H1).
Defined.

(** *** Injected defaults *)

Lemma string_props_strings n s k v : string_props n s !! k = Some v → ∃ c, v = VStr c.
Proof.
  revert n. induction s as [|a s IH]; intros n; cbn [string_props].
  - by rewrite lookup_empty.
  - rewrite lookup_insert. case_decide; [intros [= <-]; by eexists|apply IH].
Qed.

(** Only an object has a property that is an object. *)
Lemma object_prop_inv v k m : prop (own_props v) k = VObj m → ∃ props, v = VObj props.
Proof.
  unfold prop. destruct v; cbn [own_props]; rewrite ?lookup_empty; try discriminate.
  - destruct (string_props 0 s !! k) as [w|] eqn:E; [|discriminate].
    apply string_props_strings in E as [c ->]. discriminate.
  - by eexists.
Qed.

(** X9. The guarantee of the compile-time default holds for any injected
    configuration whose [layout] and [colorClasses] are objects: whatever
    the store goes through, no key of the stored default and none of its
    two subsections is lost. *)
Theorem injected_default_fields_are_kept platform custom this0 acts l c :
  prop (own_props custom) "layout" = VObj l →
  prop (own_props custom) "colorClasses" = VObj c →
  constructor platform custom = Normal this0 →
  populated (own_props (defaultConfig this0)) (config (run acts this0)).
Proof.
  intros Hl Hc H0. apply run_populated.
  destruct (object_prop_inv _ _ _ Hl) as [m ->].
  cbn [own_props] in Hl, Hc. unfold prop in Hl, Hc.
  destruct (m !! "layout") as [vl|] eqn:El; [|discriminate Hl].
  destruct (m !! "colorClasses") as [vc|] eqn:Ec; [|discriminate Hc].
  cbn [default from_option id] in Hl, Hc. subst vl vc.
  revert H0. unfold constructor. cbn [truthy].
  destruct (ANDROID platform || IOS platform); cbn [set mbind completion_bind];
    intros [= <-]; cbn [config defaultConfig own_props];
    (split; [apply keeps_refl|]);
    split; eexists; (split; [|apply keeps_refl]);
    unfold prop; rewrite ?lookup_insert_ne by done; by rewrite ?El, ?Ec.
Qed.

Lemma injected_default_fields_are_kept_witness :
  populated
    (own_props (defaultConfig default_store))
    (config (run boxed_with_extra_key default_store)).
Proof.
  by apply (injected_default_fields_are_kept desktop DEFAULT_CONFIG _ _
              DEFAULT_layout DEFAULT_colorClasses).
Defined.

End config_more.

(** ** Subscribers of the store *)

Section subscriber_facts.
Import Config Subscriber.

Lemma deliver_cons {C} (callback : obj → C → completion C) v values c c' :
  callback v c = Normal c' →
  deliver callback (v :: values) c = deliver callback values c'.
Proof. intros H. unfold deliver. cbn [foldl mbind completion_bind]. by rewrite H. Qed.

(** A callback that succeeds on every value with both subsections, and
    then shows [view] of the value in [field], ends a delivery of such
    values showing the last one. *)
Lemma deliver_follows {C} (callback : obj → C → completion C)
    (view : obj → value) (field : C → value) values :
  (∀ v c, has_sections v → ∃ c', callback v c = Normal c' ∧ field c' = view v) →
  Forall has_sections values →
  ∀ c, ∃ c', deliver callback values c = Normal c' ∧
             field c' = match last values with
                        | Some v => view v
                        | None => field c
                        end.
Proof.
  intros Hcb. induction 1 as [|v values Hv _ IH]; intros c.
  - by exists c.
  - destruct (Hcb v c Hv) as (c1 & H1 & F1). destruct (IH c1) as (c' & H' & F').
    exists c'. rewrite (deliver_cons _ _ _ _ _ H1). split; [done|].
    rewrite F'. destruct values as [|w values]; [exact F1|].
    rewrite last_cons_cons, last_cons. by destruct (last values).
Qed.

Lemma emitted_between_run acts this :
  ∃ news, emitted_between this (run acts this) = news ∧
          Forall has_sections news ∧
          last (config this :: news) = Some (config (run acts this)).
Proof.
  destruct (run_emits acts this) as (news & Hn & Hs & Hl).
  exists news. unfold emitted_between. by rewrite Hn, drop_app_length.
Qed.

(** The state of a store built from [DEFAULT_CONFIG], at any later time:
    its subject holds the current configuration, which has both
    subsections. *)
Lemma default_store_state platform this0 acts :
  constructor platform VUndefined = Normal this0 →
  last (onConfigChanged (run acts this0)) = Some (config (run acts this0)) ∧
  has_sections (config (run acts this0)).
Proof.
  intros H0.
  assert (H1 : onConfigChanged this0 = [config this0] ∧ has_sections (config this0)).
  { revert H0. unfold constructor. cbn [truthy].
    destruct (ANDROID platform || IOS platform); cbn [set mbind completion_bind DEFAULT_CONFIG];
      intros [= <-]; (split; [done|]); split; by eexists. }
  destruct H1 as [H1 Hs0].
  destruct (run_emits acts this0) as (news & Hn & Hs & Hlast).
  rewrite Hn, H1. split; [done|].
  destruct news as [|v news]; [by injection Hlast as <-|].
  rewrite last_cons_cons in Hlast.
  assert (Hin : config (run acts this0) ∈ v :: news) by by apply last_Some_elem_of.
  by eapply Forall_forall in Hs.
Qed.

Lemma SearchBar_onSettings_ok v bar :
  has_sections v →
  ∃ bar', SearchBar.onSettings v bar = Normal bar' ∧
          SearchBar.toolbarColor bar' = toolbar_of v ∧
          SearchBar.collapsed bar' = SearchBar.collapsed bar ∧
          SearchBar.onInput bar' = SearchBar.onInput bar.
Proof.
  intros [_ [cc Hcc]]. unfold SearchBar.onSettings, toolbar_of.
  rewrite (prop_lookup _ _ _ Hcc). by eexists.
Qed.

(** X10. The search bar shows the store's current toolbar colour.  For a store
    built from [DEFAULT_CONFIG], a search bar created at any time is
    constructed without exception, no later configuration makes its
    subscriber throw, and after any further run its [toolbarColor] is
    [colorClasses.toolbar] of the store's configuration. *)
Theorem search_bar_shows_toolbar_colour platform this0 before after :
  constructor platform VUndefined = Normal this0 →
  let store1 := run before this0 in
  let store2 := run after store1 in
  ∃ bar1 bar2,
    SearchBar.constructor store1 = Normal bar1 ∧
    SearchBar.toolbarColor bar1 = toolbar_of (config store1) ∧
    deliver SearchBar.onSettings (emitted_between store1 store2) bar1 = Normal bar2 ∧
    SearchBar.toolbarColor bar2 = toolbar_of (config store2).
Proof.
  intros H0 store1 store2.
  destruct (default_store_state platform this0 before H0) as [Hlast Hsec].
  fold store1 in Hlast, Hsec.
  destruct (SearchBar_onSettings_ok (config store1)
              {| SearchBar.collapsed := true; SearchBar.toolbarColor := VUndefined;
                 SearchBar.onInput := [] |} Hsec) as (bar1 & Hb1 & Ht1 & _).
  subst store2.
  destruct (emitted_between_run after store1) as (news & -> & Hs & Hl).
  destruct (deliver_follows SearchBar.onSettings toolbar_of SearchBar.toolbarColor news)
    with (c := bar1) as (bar2 & Hb2 & Ht2); [|done|].
  { intros v c Hv. destruct (SearchBar_onSettings_ok v c Hv) as (c' & ? & ? & _).
    by exists c'. }
  exists bar1, bar2. unfold SearchBar.constructor, subscribe. rewrite Hlast.
  split; [done|]. split; [done|]. split; [done|]. rewrite Ht2.
  destruct news as [|v news].
  - injection Hl as <-. done.
  - rewrite last_cons_cons in Hl. by rewrite Hl.
Qed.

Lemma search_bar_shows_toolbar_colour_witness :
  ∃ bar1 bar2,
    SearchBar.constructor default_store = Normal bar1 ∧
    SearchBar.toolbarColor bar1 = VStr "mat-white-500-bg" ∧
    deliver SearchBar.onSettings
      (emitted_between default_store (run red_toolbar default_store)) bar1 = Normal bar2 ∧
    SearchBar.toolbarColor bar2 = VStr "mat-red-500-bg".
Proof.
  destruct (search_bar_shows_toolbar_colour desktop default_store [] red_toolbar eq_refl)
    as (bar1 & bar2 & H1 & T1 & H2 & T2).
  exists bar1, bar2. split; [exact H1|]. split; [by rewrite T1|].
  split; [exact H2|]. rewrite T2. vm_compute. reflexivity.
Defined.

Lemma Main_onSettings_ok v main :
  has_sections v →
  ∃ main', Main.onSettings v main = Normal main' ∧
           Main.layoutMode main' = mode_of v ∧
           Main.fuseSettings main' = VObj v ∧
           Main.bodyClassName main' = Main.bodyClassName main.
Proof.
  intros [[l Hl] _]. unfold Main.onSettings, mode_of.
  cbn [Main.fuseSettings get]. rewrite (prop_lookup _ _ _ Hl). by eexists.
Qed.

Lemma deliver_keeps {C A} (callback : obj → C → completion C) (field : C → A) values :
  (∀ v c c', callback v c = Normal c' → field c' = field c) →
  ∀ c c', deliver callback values c = Normal c' → field c' = field c.
Proof.
  intros Hcb. induction values as [|v values IH]; intros c c'.
  - unfold deliver. cbn [foldl]. by intros [= <-].
  - destruct (callback v c) as [c1|e] eqn:E.
    + rewrite (deliver_cons _ _ _ _ _ E). intros H. by rewrite (IH _ _ H), (Hcb _ _ _ E).
    + unfold deliver. cbn [foldl mbind completion_bind]. rewrite E.
      clear. induction values as [|w values IH]; [discriminate|exact IH].
Qed.

Lemma Main_onSettings_body v main main' :
  Main.onSettings v main = Normal main' →
  Main.bodyClassName main' = Main.bodyClassName main.
Proof.
  unfold Main.onSettings. cbn [Main.fuseSettings get mbind completion_bind].
  destruct (get (prop v "layout") "mode"); [|discriminate]. by intros [= <-].
Qed.

(** X11. The main component's [layoutMode] is the store's current layout mode.
    For a store built from [DEFAULT_CONFIG], a main component created at
    any time is constructed without exception, with [' is-mobile'] added
    to the body's classes exactly on a mobile platform; no later
    configuration makes its subscriber throw, and after any further run
    [fuseSettings] is the store's configuration and [layoutMode] its
    [layout.mode]. *)
Theorem main_shows_layout_mode platform this0 before after body :
  constructor platform VUndefined = Normal this0 →
  let store1 := run before this0 in
  let store2 := run after store1 in
  ∃ main1 main2,
    Main.constructor store1 platform body = Normal main1 ∧
    deliver Main.onSettings (emitted_between store1 store2) main1 = Normal main2 ∧
    Main.layoutMode main2 = mode_of (config store2) ∧
    Main.fuseSettings main2 = VObj (config store2) ∧
    Main.bodyClassName main2
    = if ANDROID platform || IOS platform then body +:+ " is-mobile" else body.
Proof.
  intros H0 store1 store2.
  destruct (default_store_state platform this0 before H0) as [Hlast Hsec].
  fold store1 in Hlast, Hsec. subst store2.
  set (main0 := {| Main.fuseSettings := VUndefined; Main.layoutMode := VUndefined;
                   Main.subscribed := true; Main.bodyClassName := body |}).
  destruct (Main_onSettings_ok (config store1) main0 Hsec) as (m1 & Hm1 & Hmode1 & Hset1 & Hb1).
  set (main1 := if ANDROID platform || IOS platform
                then {| Main.fuseSettings := Main.fuseSettings m1;
                        Main.layoutMode := Main.layoutMode m1;
                        Main.subscribed := Main.subscribed m1;
                        Main.bodyClassName := Main.bodyClassName m1 +:+ " is-mobile" |}
                else m1).
  assert (Hc : Main.constructor store1 platform body = Normal main1).
  { unfold Main.constructor, subscribe. rewrite Hlast. fold main0. by rewrite Hm1. }
  assert (Hf1 : Main.layoutMode main1 = mode_of (config store1) ∧
                Main.fuseSettings main1 = VObj (config store1) ∧
                Main.bodyClassName main1
                = if ANDROID platform || IOS platform then body +:+ " is-mobile" else body).
  { unfold main1. destruct (ANDROID platform || IOS platform); cbn; by rewrite ?Hb1. }
  destruct Hf1 as (Hmode & Hset & Hbody).
  destruct (emitted_between_run after store1) as (news & -> & Hs & Hl).
  destruct (deliver_follows Main.onSettings mode_of Main.layoutMode news)
    with (c := main1) as (main2 & Hd & Hmode2); [|done|].
  { intros v c Hv. destruct (Main_onSettings_ok v c Hv) as (c' & ? & ? & _). by exists c'. }
  destruct (deliver_follows Main.onSettings VObj Main.fuseSettings news)
    with (c := main1) as (main2' & Hd' & Hset2); [|done|].
  { intros v c Hv. destruct (Main_onSettings_ok v c Hv) as (c' & ? & _ & ? & _). by exists c'. }
  rewrite Hd in Hd'. injection Hd' as <-.
  exists main1, main2. split; [done|]. split; [done|].
  rewrite Hmode2, Hset2, (deliver_keeps _ _ _ Main_onSettings_body _ _ Hd), Hbody.
  destruct news as [|v news].
  - injection Hl as <-. by rewrite Hmode, Hset.
  - rewrite last_cons_cons in Hl. by rewrite Hl.
Qed.

Lemma main_shows_layout_mode_witness :
  ∃ main1 main2,
    Main.constructor default_store desktop "app" = Normal main1 ∧
    deliver Main.onSettings
      (emitted_between default_store (run boxed_with_colour default_store)) main1
    = Normal main2 ∧
    Main.layoutMode main2 = VStr "boxed" ∧
    Main.bodyClassName main2 = "app".
Proof.
  destruct (main_shows_layout_mode desktop default_store [] boxed_with_colour "app" eq_refl)
    as (main1 & main2 & H1 & H2 & Hm & _ & Hb).
  exists main1, main2. split; [exact H1|]. split; [exact H2|].
  split; [|exact Hb]. rewrite Hm. vm_compute. reflexivity.
Defined.

(** X12. A store built from an injected configuration that lacks a subsection
    cannot be subscribed to by the component that reads it: the search
    bar's constructor throws without [colorClasses], the main component's
    without [layout]. *)
Theorem subscriber_throws_without_section platform custom this0 body :
  constructor platform custom = Normal this0 →
  (config this0 !! "colorClasses" = None →
     SearchBar.constructor this0 = Throw TypeError) ∧
  (config this0 !! "layout" = None →
     Main.constructor this0 platform body = Throw TypeError).
Proof.
  intros H0.
  assert (H1 : onConfigChanged this0 = [config this0]).
  { revert H0. unfold constructor.
    destruct (if ANDROID platform || IOS platform then _ else _); [|discriminate].
    by intros [= <-]. }
  split; intros Hn.
  - unfold SearchBar.constructor, subscribe, SearchBar.onSettings, prop.
    by rewrite H1; cbn [last]; rewrite Hn.
  - unfold Main.constructor, subscribe, Main.onSettings, prop.
    rewrite H1. cbn [last Main.fuseSettings get]. unfold prop. by rewrite Hn.
Qed.

Lemma subscriber_throws_without_section_witness :
  ∃ this0, constructor desktop layout_only = Normal this0 ∧
           SearchBar.constructor this0 = Throw TypeError.
Proof.
  eexists. split; [reflexivity|].
  by apply (subscriber_throws_without_section desktop layout_only _ "").
Defined.

End subscriber_facts.

(** ** More on navigation flattening *)

Section navigation_more.
Import Navigation.

Lemma is_string_eq v literal : is_string v literal = true → v = VStr literal.
Proof. destruct v; try discriminate. cbn. by intros ->%String.eqb_eq. Qed.

Lemma flatten_node_records n : Forall flat_record (flatten_node n).
Proof.
  induction n as [ty ti ic u|ty ti ic u cs IH] using navItem_tree_ind;
    cbn [flatten_node];
    (destruct (is_string ty "item") eqn:E;
     [apply is_string_eq in E as ->; repeat constructor;
      exists ti, (or_else ic (VBool false)), u; split; [done|];
      unfold or_else; destruct (truthy ic) eqn:T; [by left|by right]|]);
    destruct (is_string ty "collapse" || is_string ty "group"); try by constructor.
  induction IH as [|c cs Hc _ IHcs]; cbn; [constructor|].
  by apply Forall_app.
Qed.

(** X13. Whatever the tree, every record in the list returned on a new instance
    has exactly the keys [title], [type], [icon] and [url], is tagged
    [item], and its icon is truthy or [false], never [undefined], [null]
    or an empty string. *)
Theorem returned_records_are_items navigation :
  Forall flat_record (returned (getFlatNavigation navigation new)).
Proof.
  rewrite getFlatNavigation_returned. cbn [returned flatNavigation new app].
  unfold flatten. induction navigation as [|n navigation IH]; cbn; [constructor|].
  apply Forall_app. split; [apply flatten_node_records|exact IH].
Qed.

(** X14. What the loop passes over: the children of an item are not visited,
    and a node tagged neither [item], [collapse] nor [group] is skipped
    together with everything below it. *)
Theorem unvisited_subtrees type title icon url children this :
  getFlatNavigation [NavItem (VStr "item") title icon url children] this
  = getFlatNavigation [NavItem (VStr "item") title icon url None] this ∧
  (is_string type "item" = false → is_string type "collapse" = false →
   is_string type "group" = false →
   getFlatNavigation [NavItem type title icon url children] this = this).
Proof.
  split; [done|]. intros H1 H2 H3.
  unfold getFlatNavigation. cbn [foldl visit Navigation.type]. by rewrite H1, H2, H3.
Qed.

Lemma unvisited_subtrees_witness :
  getFlatNavigation
    [NavItem (VStr "divider") VUndefined VUndefined VUndefined (Some sample_navigation)] new
  = new.
Proof. by apply (unvisited_subtrees (VStr "divider")). Defined.

(** X15. Calls with different trees on one instance pile up in call order: the
    result is that of one call with the trees put one after the other. *)
Theorem successive_trees_concatenate first second this :
  getFlatNavigation second (getFlatNavigation first this)
  = getFlatNavigation (first ++ second) this ∧
  returned (getFlatNavigation second (getFlatNavigation first this))
  = returned this ++ flatten first ++ flatten second.
Proof.
  split.
  - unfold getFlatNavigation. by rewrite foldl_app.
  - by rewrite !getFlatNavigation_returned, app_assoc.
Qed.

End navigation_more.

(** ** Media-query service *)

Section match_media_facts.
Import MatchMedia.

Lemma no_repeat_snoc l x y :
  no_repeat l → last l = Some x → x ≠ y → no_repeat (l ++ [y]).
Proof.
  induction l as [|a [|b l] IH]; cbn [no_repeat app]; intros Hn Hl Hxy.
  - done.
  - injection Hl as ->. done.
  - destruct Hn as [Hab Hn]. split; [done|].
    apply IH; [done| |done]. by rewrite last_cons_cons in Hl.
Qed.

Lemma onChange_invariant this mqAlias :
  no_repeat (onMediaChange this) →
  last (onMediaChange this) = Some (activeMediaQuery this) →
  no_repeat (onMediaChange (onChange this mqAlias)) ∧
  last (onMediaChange (onChange this mqAlias))
  = Some (activeMediaQuery (onChange this mqAlias)).
Proof.
  intros Hn Hl. unfold onChange.
  destruct (String.eqb (activeMediaQuery this) mqAlias) eqn:E; cbn; [done|].
  apply String.eqb_neq in E. split; [by eapply no_repeat_snoc|by rewrite last_snoc].
Qed.

Lemma run_invariant changes this :
  no_repeat (onMediaChange this) →
  last (onMediaChange this) = Some (activeMediaQuery this) →
  no_repeat (onMediaChange (run changes this)) ∧
  last (onMediaChange (run changes this)) = Some (activeMediaQuery (run changes this)).
Proof.
  unfold run. revert this.
  induction changes as [|c changes IH]; intros this Hn Hl; cbn [foldl]; [done|].
  destruct (onChange_invariant this c Hn Hl). by apply IH.
Qed.

(** X16. Whatever sequence of media changes arrives, the service never
    announces the same alias twice in a row, what it holds for new
    subscribers is [activeMediaQuery], and a change to the alias that is
    already active is ignored altogether. *)
Theorem media_changes_are_deduplicated changes :
  let this := run changes constructor in
  no_repeat (onMediaChange this) ∧
  last (onMediaChange this) = Some (activeMediaQuery this) ∧
  onChange this (activeMediaQuery this) = this.
Proof.
  intros this. destruct (run_invariant changes constructor) as [Hn Hl]; [done|done|].
  split; [done|]. split; [done|].
  unfold onChange. by rewrite String.eqb_refl.
Qed.

End match_media_facts.

(** ** More on the sidebar *)

Section sidebar_more.
Import Config Sidebar.

(** *** Opening and closing *)

(** X17. [toggleOpen()] flips [opened] on an unlocked sidebar and does nothing
    on a locked one; the fold state is not touched either way. *)
Theorem toggleOpen_flips_opened this :
  (on (isLockedOpen this) = false → opened (toggleOpen this) = negb (opened this)) ∧
  (on (isLockedOpen this) = true → toggleOpen this = this) ∧
  folded (toggleOpen this) = folded this ∧
  isLockedOpen (toggleOpen this) = isLockedOpen this.
Proof.
  unfold toggleOpen, open, close.
  destruct (hideBackdrop_fields this) as (_ & Hf & Hk & _).
  destruct (opened this) eqn:Ho, (on (isLockedOpen this)) eqn:Hl; cbn;
    rewrite ?Ho; done.
Qed.

Lemma toggleOpen_flips_opened_witness :
  opened (toggleOpen (constructor 0 page)) = true ∧
  opened (toggleOpen (toggleOpen (constructor 0 page))) = false.
Proof.
  split.
  - by apply (toggleOpen_flips_opened (constructor 0 page)).
  - by apply (toggleOpen_flips_opened (toggleOpen (constructor 0 page))).
Defined.

Lemma filter_other (x : element) (l : list element) :
  x ∉ l → filter (λ y, y ≠ x) l = l.
Proof.
  induction l as [|a l IH]; [done|]. intros [Ha Hl]%not_elem_of_cons.
  rewrite filter_cons_True by done. by rewrite IH.
Qed.

(** X18. A backdrop comes and goes without trace: on a closed, unlocked sidebar
    with no fade-out pending, [open()], [close()] and the end of the
    fade-out leave the parent's children and the styles as they were, and
    no backdrop held. *)
Theorem open_close_removes_backdrop this :
  opened this = false → on (isLockedOpen this) = false →
  pendingDone this = 0 → fresh (dom this) ∉ siblings (dom this) →
  let s := run [Open; Close; AnimationDone] this in
  siblings (dom s) = siblings (dom this) ∧
  style (dom s) = style (dom this) ∧
  _backdrop s = None ∧ opened s = false ∧ pendingDone s = 0 ∧
  folded s = folded this.
Proof.
  intros Ho Hl Hp Hf s. unfold s, run. cbn [foldl handle].
  rewrite (open_closed this Ho Hl).
  rewrite close_opened by done.
  unfold onDone, hideBackdrop, showBackdrop, createElement, appendChild, removeChild.
  cbn. rewrite Hp. cbn.
  rewrite filter_app, (filter_other _ _ Hf), filter_cons_False, filter_nil, app_nil_r;
    [done|]. by intros H.
Qed.

Lemma open_close_removes_backdrop_witness :
  siblings (dom (run [Open; Close; AnimationDone] (constructor 0 page))) = [0; 1].
Proof.
  apply (open_close_removes_backdrop (constructor 0 page)); try reflexivity.
  cbn. rewrite !not_elem_of_cons. repeat split; try done. apply not_elem_of_nil.
Defined.

(** *** Folding *)

(** What the setter does to the document when the sidebar is opened and
    has a sibling on its side. *)
Lemma folded_set_dom value this sibling rule :
  opened this = true →
  margin_target this = (Some sibling, rule) →
  style (dom (folded_set value this))
  = (if value then <[(sibling, rule) := styleValue]> (style (dom this))
     else delete (sibling, rule) (style (dom this))) ∧
  siblings (dom (folded_set value this)) = siblings (dom this) ∧
  margin_target (folded_set value this) = margin_target this.
Proof.
  unfold folded_set, margin_target, nextElementSibling, previousElementSibling.
  intros -> Ht. cbn [negb].
  change (align (with__folded this (Some value))) with (align this).
  change (nativeElement (with__folded this (Some value))) with (nativeElement this).
  change (dom (with__folded this (Some value))) with (dom this).
  destruct (align this) eqn:Ha; injection Ht as Hs <-; rewrite Hs;
    destruct value; cbn; by rewrite ?Ha, ?Hs.
Qed.

(** X19. Folding and unfolding an opened sidebar leaves no trace on the sibling
    it is aligned to: the sidebar is unfolded again, the margin rule is
    gone, and if the sibling had no such rule before, the styles are as
    they were.  The renderer is called twice, to set and to remove the
    rule. *)
Theorem fold_unfold_restores_margin this sibling rule :
  opened this = true → on (folded this) = false →
  margin_target this = (Some sibling, rule) →
  let s := Sidebar.unfold (fold this) in
  folded s = Some false ∧
  style (dom s) !! (sibling, rule) = None ∧
  (style (dom this) !! (sibling, rule) = None → style (dom s) = style (dom this)) ∧
  calls s = calls this ++ [SetStyle sibling rule styleValue; RemoveStyle sibling rule].
Proof.
  intros Ho Hf Ht s. unfold s, fold. rewrite Hf.
  destruct (folded_set_opened true this Ho) as (Hfd & Ho' & _).
  destruct (folded_set_dom true this sibling rule Ho Ht) as (Hst & _ & Ht').
  destruct (folded_set_calls true this sibling rule Ho Ht) as [Hc _].
  set (f := folded_set true this) in *. rewrite Ht in Ht'.
  unfold Sidebar.unfold. rewrite Hfd. cbn [on default from_option id negb].
  destruct (folded_set_opened false f Ho') as (Hfd2 & _).
  destruct (folded_set_dom false f sibling rule Ho' Ht') as (Hst2 & _).
  destruct (folded_set_calls false f sibling rule Ho' Ht') as [Hc2 _].
  split; [done|]. rewrite Hst2, Hst, Hc2, Hc, delete_insert_eq, <- app_assoc.
  split; [apply lookup_delete_eq|]. split; [apply delete_id|done].
Qed.

Lemma fold_unfold_restores_margin_witness :
  let this := open (constructor 0 page) in
  opened this = true ∧
  style (dom (Sidebar.unfold (fold this))) = style (dom this).
Proof.
  split; [reflexivity|].
  by apply (fold_unfold_restores_margin (open (constructor 0 page)) 1 "marginLeft").
Defined.

(** *** Hovering *)

(** X20. The pointer handlers change nothing but [unfolded], and that only on a
    folded sidebar: entering sets it, leaving clears it, and the
    persistent [folded] flag stays as it is. *)
Theorem hover_only_sets_unfolded this :
  with_unfolded (onMouseEnter this) (unfolded this) = this ∧
  with_unfolded (onMouseLeave this) (unfolded this) = this ∧
  (on (folded this) = false → onMouseEnter this = this ∧ onMouseLeave this = this) ∧
  (on (folded this) = true →
     unfolded (onMouseEnter this) = Some true ∧
     unfolded (onMouseLeave (onMouseEnter this)) = Some false).
Proof.
  unfold onMouseEnter, onMouseLeave.
  destruct (on (folded this)) eqn:Hf; destruct this; cbn in *; rewrite ?Hf; done.
Qed.

Lemma hover_only_sets_unfolded_witness :
  let this := fold (open (constructor 0 page)) in
  on (folded this) = true ∧
  unfolded (onMouseEnter this) = Some true ∧
  unfolded (onMouseLeave (onMouseEnter this)) = Some false.
Proof.
  split; [reflexivity|].
  by apply (hover_only_sets_unfolded (fold (open (constructor 0 page)))).
Defined.

(** *** What the sidebar removes from the document *)

Lemma handle_foreign x this e : foreign x this → foreign x (handle this e).
Proof.
  unfold foreign. intros (Hin & Hlt & Hb).
  destruct e; cbn [handle]; unfold_methods; repeat case_match; cbn in *;
    try done; subst;
    repeat split; rewrite ?elem_of_app, ?list_elem_of_filter; try lia; try tauto;
    try congruence; try (intros [= ?]; lia).
  split; [congruence|done].
Qed.

(** X21. The only element the sidebar ever takes out of the document is the
    backdrop it currently holds.  An element that is in the document and
    is not that backdrop stays there whatever happens to the sidebar; this
    protects the page's own elements, and it also means that a backdrop
    which was replaced by a newer one before its fade-out ended is never
    removed. *)
Theorem only_held_backdrop_is_removed x events this :
  x ∈ siblings (dom this) → x < fresh (dom this) → _backdrop this ≠ Some x →
  x ∈ siblings (dom (run events this)).
Proof.
  intros Hin Hlt Hb.
  assert (H : foreign x (run events this)); [|by destruct H].
  assert (H0 : foreign x this) by done. clear Hin Hlt Hb.
  unfold run. revert this H0. induction events as [|e events IH]; intros this H0; [done|].
  cbn [foldl]. by apply IH, handle_foreign.
Qed.

Lemma only_held_backdrop_is_removed_witness :
  let this := run [Open; Close; Open] (constructor 0 page) in
  _backdrop this = Some 3 ∧
  2 ∈ siblings (dom (run [Close; AnimationDone; AnimationDone] this)).
Proof.
  split; [reflexivity|].
  apply (only_held_backdrop_is_removed 2 _ (run [Open; Close; Open] (constructor 0 page))).
  - cbn. rewrite !elem_of_cons. tauto.
  - cbn. lia.
  - cbn. congruence.
Defined.

(** *** Lock-open, continued *)

(** X22. When the breakpoint stops being active the handler unfolds before it
    closes: the sidebar ends closed, unlocked and, if it was opened,
    unfolded with the sibling's margin rule removed.  It reads nothing
    from the configuration store and cannot throw. *)
Theorem deactivation_unfolds_then_closes this cfg :
  _wasActive this ≠ Some false →
  let r := onMediaChange false cfg this in
  snd r = None ∧
  opened (fst r) = false ∧ isLockedOpen (fst r) = Some false ∧
  _wasActive (fst r) = Some false ∧
  (opened this = true →
     on (folded (fst r)) = false ∧
     ∀ sibling rule,
       on (folded this) = true → margin_target this = (Some sibling, rule) →
       style (dom (fst r)) !! (sibling, rule) = None).
Proof.
  intros Hw. cbv zeta. unfold onMediaChange.
  rewrite bool_decide_eq_false_2 by done. cbn [fst snd].
  split; [done|]. split; [done|].
  set (u := with_isLockedOpen this (Some false)).
  assert (Hl : isLockedOpen (Sidebar.unfold u) = Some false).
  { unfold Sidebar.unfold. destruct (on (folded u)); cbn [negb]; [|done].
    destruct (opened u) eqn:Ho.
    - by destruct (folded_set_opened false u Ho) as (_ & _ & -> & _).
    - by rewrite folded_set_closed. }
  split; [exact Hl|]. split; [done|]. intros Ho.
  change (on (folded (Sidebar.unfold u)) = false ∧
          ∀ sibling rule, on (folded u) = true → margin_target u = (Some sibling, rule) →
                          style (dom (Sidebar.unfold u)) !! (sibling, rule) = None).
  assert (Hou : opened u = true) by done.
  unfold Sidebar.unfold. destruct (on (folded u)) eqn:Hf; cbn [negb].
  - destruct (folded_set_opened false u Hou) as (Hfd & _). split; [by rewrite Hfd|].
    intros sibling rule _ Ht.
    by destruct (folded_set_calls false u sibling rule Hou Ht) as [_ ->].
  - by rewrite Hf.
Qed.

Lemma deactivation_unfolds_then_closes_witness :
  let this := fst (onMediaChange true folded_store
                     (fst (mounted 0 page None left (Some "gt-md") false folded_store))) in
  on (folded this) = true ∧ opened this = true ∧
  opened (fst (onMediaChange false folded_store this)) = false ∧
  on (folded (fst (onMediaChange false folded_store this))) = false.
Proof.
  cbv zeta.
  set (this := fst (onMediaChange true folded_store
                      (fst (mounted 0 page None left (Some "gt-md") false folded_store)))).
  assert (Hf : on (folded this) = true) by (vm_compute; reflexivity).
  assert (Ho : opened this = true) by (vm_compute; reflexivity).
  assert (Hw : _wasActive this ≠ Some false) by (vm_compute; discriminate).
  destruct (deactivation_unfolds_then_closes this folded_store Hw)
    as (_ & Hc & _ & _ & Hu).
  split; [exact Hf|]. split; [exact Ho|]. split; [exact Hc|]. by apply Hu.
Defined.

Lemma fold_lock this : same_lock (fold this) this.
Proof. same_lock_by_cases. Qed.

Lemma unfold_lock this : same_lock (Sidebar.unfold this) this.
Proof. same_lock_by_cases. Qed.

Lemma hideBackdrop_lock this : same_lock (hideBackdrop this) this.
Proof. same_lock_by_cases. Qed.

Lemma same_lock_locked a b :
  same_lock a b → locked_only_if_opened b → locked_only_if_opened a.
Proof. unfold locked_only_if_opened. by intros [-> ->]. Qed.

Lemma onMediaChange_locked isActive cfg this :
  locked_only_if_opened this →
  locked_only_if_opened (fst (onMediaChange isActive cfg this)).
Proof.
  intros H. unfold onMediaChange.
  destruct (bool_decide (_wasActive this = Some isActive)); [done|].
  destruct isActive.
  - set (a := with_opened (with_isLockedOpen this (Some true)) true).
    destruct (navigationFolded cfg) as [setting|e]; cbn [fst]; [|by intros _].
    intros _. change (opened (hideBackdrop (if truthy setting then fold a else a)) = true).
    destruct (hideBackdrop_lock (if truthy setting then fold a else a)) as [-> _].
    destruct (truthy setting); [|done]. by destruct (fold_lock a) as [-> _].
  - cbn [fst]. unfold locked_only_if_opened.
    change (on (isLockedOpen (Sidebar.unfold (with_isLockedOpen this (Some false)))) = true
            → false = true).
    by destruct (unfold_lock (with_isLockedOpen this (Some false))) as [_ ->].
Qed.

Lemma handle_locked this e :
  locked_only_if_opened this → locked_only_if_opened (handle this e).
Proof.
  intros H.
  assert (Hopen : locked_only_if_opened (open this)).
  { unfold open. destruct (opened this || on (isLockedOpen this)); [done|]. by intros _. }
  assert (Hclose : locked_only_if_opened (close this)).
  { unfold close. destruct (negb (opened this) || on (isLockedOpen this)) eqn:E; [done|].
    apply orb_false_iff in E as [_ E]. unfold locked_only_if_opened.
    change (on (isLockedOpen (hideBackdrop this)) = true → false = true).
    destruct (hideBackdrop_lock this) as [_ ->]. by rewrite E. }
  destruct e; cbn [handle]; try done;
    try (eapply same_lock_locked; [|exact H]; same_lock_by_cases).
  - unfold toggleOpen. by destruct (opened this).
  - destruct (_onMediaChangeSubscription this) as [[[|]]|]; try done.
    by apply onMediaChange_locked.
Qed.

(** X23. In every state a mounted sidebar can reach, locked open implies
    opened: while the lock is on, nothing closes the sidebar. *)
Theorem locked_sidebar_is_opened el d n a l isActive cfg events :
  locked_only_if_opened (run events (fst (mounted el d n a l isActive cfg))).
Proof.
  assert (H0 : locked_only_if_opened (fst (mounted el d n a l isActive cfg))).
  { unfold mounted, ngOnInit, _setupLockedOpen.
    set (c := _setupAlignment _).
    assert (Hc : isLockedOpen c = None) by (unfold c, _setupAlignment; by destruct a).
    destruct (negb (given (lockedOpen c)));
      [cbn [fst]; unfold locked_only_if_opened; by rewrite Hc|].
    set (c' := called _ Subscribe).
    assert (Hc' : locked_only_if_opened c') by (by unfold locked_only_if_opened, c'; cbn; rewrite Hc).
    pose proof (onMediaChange_locked isActive cfg c' Hc') as Hm.
    by destruct (onMediaChange isActive cfg c') as [t [e|]]. }
  unfold run. revert H0. generalize (fst (mounted el d n a l isActive cfg)) as this.
  induction events as [|e events IH]; intros this H0; [done|].
  cbn [foldl]. by apply IH, handle_locked.
Qed.

(** *** Teardown, continued *)

(** X24. [ngOnDestroy] tells the registry exactly once, whatever the state and
    even when it goes on to throw: the calls it makes are at most one
    [removeStyle], then the unregistration under the sidebar's name, then
    the unsubscription if and only if teardown completes. *)
Theorem ngOnDestroy_always_unregisters this :
  let r := ngOnDestroy this in
  ∃ reverted,
    calls (fst r)
    = calls this ++ reverted ++
      Unregister (name this) :: match snd r with None => [Unsubscribe] | Some _ => [] end ∧
    (reverted = [] ∨ ∃ sibling rule, reverted = [RemoveStyle sibling rule]).
Proof.
  cbv zeta. unfold ngOnDestroy, Sidebar.unfold, folded_set, removeStyle, setStyle.
  repeat case_match; cbn;
    first [ exists []; split; [by rewrite <- ?app_assoc | by left]
          | eexists [_]; split; [by rewrite <- ?app_assoc | right; by eexists _, _] ].
Qed.

(** *** Where the margin goes *)

Lemma next_of_snoc x l f :
  x ∈ l → next_of x l = None → next_of x (l ++ [f]) = Some f.
Proof.
  induction l as [|a l IH]; cbn [next_of app]; [by intros ?%elem_of_nil|].
  intros Hin. destruct (decide (a = x)) as [->|Hne].
  - by destruct l.
  - apply IH. apply elem_of_cons in Hin as [->|Hin]; done.
Qed.

(** X25. The backdrop is appended after the last child of the sidebar's
    parent.  So when a left-aligned sidebar is itself that last child,
    [open()] makes the backdrop its next sibling, and a [fold()] that
    follows puts the [64px] margin on the backdrop. *)
Theorem fold_after_open_styles_backdrop this :
  opened this = false → on (isLockedOpen this) = false → on (folded this) = false →
  align this = left →
  nativeElement this ∈ siblings (dom this) → nextElementSibling this = None →
  let s := fold (open this) in
  _backdrop s = Some (fresh (dom this)) ∧
  nextElementSibling s = Some (fresh (dom this)) ∧
  style (dom s) !! (fresh (dom this), "marginLeft") = Some "64px".
Proof.
  intros Ho Hl Hf Ha Hin Hn s. unfold s. rewrite (open_closed this Ho Hl).
  set (o := with_opened (showBackdrop this) true).
  assert (Hoo : opened o = true) by done.
  assert (Ht : margin_target o = (Some (fresh (dom this)), "marginLeft")).
  { unfold margin_target. change (align o) with (align this). rewrite Ha.
    unfold nextElementSibling. cbn. by rewrite (next_of_snoc _ _ _ Hin Hn). }
  unfold fold. change (folded o) with (folded this). rewrite Hf.
  destruct (folded_set_opened true o Hoo) as (_ & _ & _ & Hb & _).
  destruct (folded_set_dom true o _ _ Hoo Ht) as (Hst & Hsib & Ht').
  split; [by rewrite Hb|]. split.
  - rewrite Ht in Ht'. unfold margin_target in Ht'.
    destruct (align (folded_set true o)); [|discriminate Ht'].
    by injection Ht' as Hx.
  - rewrite Hst. apply lookup_insert_eq.
Qed.

Lemma fold_after_open_styles_backdrop_witness :
  let s := fold (open (constructor 0 page_ending_with_sidebar)) in
  _backdrop s = Some 2 ∧ style (dom s) !! (2, "marginLeft") = Some "64px".
Proof.
  destruct (fold_after_open_styles_backdrop (constructor 0 page_ending_with_sidebar))
    as (Hb & _ & Hs); try reflexivity.
  - cbn. rewrite !elem_of_cons. tauto.
  - by split.
Defined.

End sidebar_more.
